(** * terminal_color_print: a shallow embedding of [terminal.py]

    The module maps colour and style names to ANSI SGR escape sequences and
    prints messages through them.  The embedding follows the source method by
    method: Python values that reach the module are [pyval]s, the process
    state the module reads and writes (the text written to [sys.stdout], the
    current binding of [builtins.print]) is a [world], and every method is a
    computation in a small state-and-exception monad [M]. *)

From Stdlib Require Import Ascii.
From stdpp Require Import base gmap strings list.

(** ** Python strings *)

Module PyStr.

(** Text is modelled with code points below 256, one [ascii] each. *)

Definition ESC : ascii := Ascii.ascii_of_nat 27.
Definition BACKSLASH : ascii := Ascii.ascii_of_nat 92.
Definition QUOTE : ascii := Ascii.ascii_of_nat 39.
Definition DQUOTE : ascii := Ascii.ascii_of_nat 34.
Definition NEWLINE : string := String (Ascii.ascii_of_nat 10) EmptyString.

(** [esc "[1m"] is the literal ["\033[1m"]. *)
Definition esc (body : string) : string := String ESC body.

(** [str.lower]: the upper-case letters below 256 are A-Z and the Latin-1
    capitals 0xC0-0xDE without the multiplication sign 0xD7; each has its
    lower-case partner 32 places further. *)
Definition is_upper (n : nat) : bool :=
  ((65 <=? n) && (n <=? 90)) || ((192 <=? n) && (n <=? 222) && negb (n =? 215)).

Definition lower_char (c : ascii) : ascii :=
  let n := Ascii.nat_of_ascii c in
  if is_upper n then Ascii.ascii_of_nat (n + 32) else c.

Fixpoint lower (s : string) : string :=
  match s with
  | EmptyString => EmptyString
  | String c s' => String (lower_char c) (lower s')
  end.

Fixpoint contains (c : ascii) (s : string) : bool :=
  match s with
  | EmptyString => false
  | String c' s' => Ascii.eqb c c' || contains c s'
  end.

(** [repr] of a [str]: single quotes unless the text has a single quote and
    no double quote; the quote and the backslash are escaped, tab, newline
    and carriage return get their letter, and every other code point that
    is not printable becomes a two-digit hexadecimal escape. *)
Definition hex_digit (n : nat) : ascii :=
  Ascii.ascii_of_nat (if n <? 10 then 48 + n else 87 + n).

Definition printable (n : nat) : bool :=
  ((32 <=? n) && (n <? 127)) || ((161 <=? n) && negb (n =? 173)).

Definition repr_char (quote c : ascii) : string :=
  let n := Ascii.nat_of_ascii c in
  if Ascii.eqb c quote || Ascii.eqb c BACKSLASH then String BACKSLASH (String c EmptyString)
  else if n =? 9 then String BACKSLASH "t"
  else if n =? 10 then String BACKSLASH "n"
  else if n =? 13 then String BACKSLASH "r"
  else if printable n then String c EmptyString
  else String BACKSLASH
         (String "x" (String (hex_digit (n / 16)) (String (hex_digit (n mod 16)) EmptyString))).

Fixpoint repr_body (quote : ascii) (s : string) : string :=
  match s with
  | EmptyString => EmptyString
  | String c s' => repr_char quote c +:+ repr_body quote s'
  end.

Definition repr (s : string) : string :=
  let quote := if contains QUOTE s && negb (contains DQUOTE s) then DQUOTE else QUOTE in
  String quote (repr_body quote s +:+ String quote EmptyString).

(** [sep.join(strings)]. *)
Definition join (sep : string) (strings : list string) : string :=
  String.concat sep strings.

End PyStr.

Import PyStr.

(** ** Python values *)

(** The values the module's parameters range over: [None], a [str], or a
    list of [str] (the [styles] parameter is
    [Optional[Union[str, List[str]]]]). *)
Inductive pyval : Type :=
  | VNone
  | VStr (s : string)
  | VList (l : list string).

(** Truth value of an object in an [if]. *)
Definition truthy (v : pyval) : bool :=
  match v with
  | VNone => false
  | VStr EmptyString => false
  | VStr _ => true
  | VList [] => false
  | VList _ => true
  end.

(** [str(v)], also what an f-string field [{v}] and [print] produce. *)
Definition py_str (v : pyval) : string :=
  match v with
  | VNone => "None"
  | VStr s => s
  | VList l => "[" +:+ join ", " (map repr l) +:+ "]"
  end.

(** ** The enumerations *)

Module Style.
Inductive t : Type :=
  BOLD | DIM | ITALIC | UNDERLINE | BLINK | REVERSE | HIDDEN | STRIKE.

Definition name (x : t) : string :=
  match x with
  | BOLD => "BOLD" | DIM => "DIM" | ITALIC => "ITALIC"
  | UNDERLINE => "UNDERLINE" | BLINK => "BLINK" | REVERSE => "REVERSE"
  | HIDDEN => "HIDDEN" | STRIKE => "STRIKE"
  end.

Definition value (x : t) : string :=
  match x with
  | BOLD => esc "[1m"
  | DIM => esc "[2m"
  | ITALIC => esc "[3m"
  | UNDERLINE => esc "[4m"
  | BLINK => esc "[5m"
  | REVERSE => esc "[7m"
  | HIDDEN => esc "[8m"
  | STRIKE => esc "[9m"
  end.

(** Iteration order of the class. *)
Definition members : list t :=
  [BOLD; DIM; ITALIC; UNDERLINE; BLINK; REVERSE; HIDDEN; STRIKE].
End Style.

Module TerminalColor.
Inductive t : Type :=
  | BLACK | RED | GREEN | YELLOW | BLUE | MAGENTA | CYAN | LIGHT_GRAY
  | DEFAULT | DARK_GRAY | LIGHT_RED | LIGHT_GREEN | LIGHT_YELLOW
  | LIGHT_BLUE | LIGHT_MAGENTA | LIGHT_CYAN | WHITE | RESET.

Definition name (x : t) : string :=
  match x with
  | BLACK => "BLACK" | RED => "RED" | GREEN => "GREEN" | YELLOW => "YELLOW"
  | BLUE => "BLUE" | MAGENTA => "MAGENTA" | CYAN => "CYAN"
  | LIGHT_GRAY => "LIGHT_GRAY" | DEFAULT => "DEFAULT"
  | DARK_GRAY => "DARK_GRAY" | LIGHT_RED => "LIGHT_RED"
  | LIGHT_GREEN => "LIGHT_GREEN" | LIGHT_YELLOW => "LIGHT_YELLOW"
  | LIGHT_BLUE => "LIGHT_BLUE" | LIGHT_MAGENTA => "LIGHT_MAGENTA"
  | LIGHT_CYAN => "LIGHT_CYAN" | WHITE => "WHITE" | RESET => "RESET"
  end.

Definition value (x : t) : string :=
  match x with
  | BLACK => esc "[30m"
  | RED => esc "[31m"
  | GREEN => esc "[32m"
  | YELLOW => esc "[33m"
  | BLUE => esc "[34m"
  | MAGENTA => esc "[35m"
  | CYAN => esc "[36m"
  | LIGHT_GRAY => esc "[37m"
  | DEFAULT => esc "[39m"
  | DARK_GRAY => esc "[90m"
  | LIGHT_RED => esc "[91m"
  | LIGHT_GREEN => esc "[92m"
  | LIGHT_YELLOW => esc "[93m"
  | LIGHT_BLUE => esc "[94m"
  | LIGHT_MAGENTA => esc "[95m"
  | LIGHT_CYAN => esc "[96m"
  | WHITE => esc "[97m"
  | RESET => esc "[0m"
  end.

Definition members : list t :=
  [BLACK; RED; GREEN; YELLOW; BLUE; MAGENTA; CYAN; LIGHT_GRAY; DEFAULT;
   DARK_GRAY; LIGHT_RED; LIGHT_GREEN; LIGHT_YELLOW; LIGHT_BLUE;
   LIGHT_MAGENTA; LIGHT_CYAN; WHITE; RESET].
End TerminalColor.

Module BackgroundColor.
Inductive t : Type :=
  | BLACK | RED | GREEN | YELLOW | BLUE | MAGENTA | CYAN | LIGHT_GRAY
  | DEFAULT | DARK_GRAY | LIGHT_RED | LIGHT_GREEN | LIGHT_YELLOW
  | LIGHT_BLUE | LIGHT_MAGENTA | LIGHT_CYAN | WHITE.

Definition name (x : t) : string :=
  match x with
  | BLACK => "BLACK" | RED => "RED" | GREEN => "GREEN" | YELLOW => "YELLOW"
  | BLUE => "BLUE" | MAGENTA => "MAGENTA" | CYAN => "CYAN"
  | LIGHT_GRAY => "LIGHT_GRAY" | DEFAULT => "DEFAULT"
  | DARK_GRAY => "DARK_GRAY" | LIGHT_RED => "LIGHT_RED"
  | LIGHT_GREEN => "LIGHT_GREEN" | LIGHT_YELLOW => "LIGHT_YELLOW"
  | LIGHT_BLUE => "LIGHT_BLUE" | LIGHT_MAGENTA => "LIGHT_MAGENTA"
  | LIGHT_CYAN => "LIGHT_CYAN" | WHITE => "WHITE"
  end.

Definition value (x : t) : string :=
  match x with
  | BLACK => esc "[40m"
  | RED => esc "[41m"
  | GREEN => esc "[42m"
  | YELLOW => esc "[43m"
  | BLUE => esc "[44m"
  | MAGENTA => esc "[45m"
  | CYAN => esc "[46m"
  | LIGHT_GRAY => esc "[47m"
  | DEFAULT => esc "[49m"
  | DARK_GRAY => esc "[100m"
  | LIGHT_RED => esc "[101m"
  | LIGHT_GREEN => esc "[102m"
  | LIGHT_YELLOW => esc "[103m"
  | LIGHT_BLUE => esc "[104m"
  | LIGHT_MAGENTA => esc "[105m"
  | LIGHT_CYAN => esc "[106m"
  | WHITE => esc "[107m"
  end.

Definition members : list t :=
  [BLACK; RED; GREEN; YELLOW; BLUE; MAGENTA; CYAN; LIGHT_GRAY; DEFAULT;
   DARK_GRAY; LIGHT_RED; LIGHT_GREEN; LIGHT_YELLOW; LIGHT_BLUE;
   LIGHT_MAGENTA; LIGHT_CYAN; WHITE].
End BackgroundColor.

(** ** The process state *)

(** The two text streams a caller can name; [sys.stdout] is the one every
    method of the module writes to. *)
Inductive file : Type := sys_stdout | sys_stderr.

(** A callable bound to [builtins.print]: the interpreter's own [print], or a
    closure [styled_print] made by [_create_styled_print] with its captured
    [style_codes]. *)
Inductive print_fn : Type :=
  | BuiltinPrint
  | StyledPrint (style_codes : string).

Record world : Type := World {
  stdout_text : string;
  stderr_text : string;
  builtins_print : print_fn
}.

Inductive exn : Type :=
  | AttributeError (attr : string)
  | TypeError (what : string)
  | OtherError (what : string).

(** Result of running a computation: a value, an exception on its way up, or
    the recursion budget of the model exhausted. *)
Inductive outcome (A : Type) : Type :=
  | Return (a : A)
  | Raise (e : exn)
  | NoFuel.
Arguments Return {A} a.
Arguments Raise {A} e.
Arguments NoFuel {A}.

Definition M (A : Type) : Type := world → outcome A * world.

Definition ret {A} (a : A) : M A := λ w, (Return a, w).

Definition bind {A B} (m : M A) (k : A → M B) : M B :=
  λ w, match m w with
       | (Return a, w') => k a w'
       | (Raise e, w') => (Raise e, w')
       | (NoFuel, w') => (NoFuel, w')
       end.

Definition raise {A} (e : exn) : M A := λ w, (Raise e, w).

(** [try: body finally: fin]. *)
Definition try_finally {A} (body : M A) (fin : M unit) : M A :=
  λ w, match body w with
       | (NoFuel, w1) => (NoFuel, w1)
       | (r, w1) =>
           match fin w1 with
           | (Return _, w2) => (r, w2)
           | (Raise e, w2) => (Raise e, w2)
           | (NoFuel, w2) => (NoFuel, w2)
           end
       end.

Declare Scope py_scope.
Delimit Scope py_scope with py.
Notation "'let*' x ':=' m 'in' k" := (bind m (λ x, k))
  (at level 10, x name, m at level 100, k at level 200) : py_scope.
Notation "m '>>' k" := (bind m (λ _, k))
  (at level 100, k at level 200, right associativity) : py_scope.
Open Scope py_scope.

Definition write (f : file) (text : string) : M unit :=
  λ w, (Return (),
        match f with
        | sys_stdout => World (stdout_text w +:+ text) (stderr_text w) (builtins_print w)
        | sys_stderr => World (stdout_text w) (stderr_text w +:+ text) (builtins_print w)
        end).

(** The streams of the model are unbuffered: a flush changes nothing. *)
Definition flush (f : file) : M unit := ret ().

Definition get_builtins_print : M print_fn := λ w, (Return (builtins_print w), w).

Definition set_builtins_print (p : print_fn) : M unit :=
  λ w, (Return (), World (stdout_text w) (stderr_text w) p).

(** ** Printing *)

(** Keyword arguments of a [print] call: data, a stream, or a flag. *)
Inductive kwval : Type :=
  | KData (v : pyval)
  | KFile (f : file)
  | KBool (b : bool).

(** The interpreter's [print]: positional arguments and the keywords [sep],
    [end], [file] and [flush]. *)
Definition print_keywords : gset string := {[ "sep"; "end"; "file"; "flush" ]}.

Definition str_or_none (dflt : string) (o : option kwval) : option string :=
  match o with
  | None | Some (KData VNone) => Some dflt
  | Some (KData (VStr s)) => Some s
  | _ => None
  end.

Definition file_or_none (o : option kwval) : option file :=
  match o with
  | None | Some (KData VNone) => Some sys_stdout
  | Some (KFile f) => Some f
  | _ => None
  end.

Definition builtin_print (args : list pyval) (kwargs : gmap string kwval) : M unit :=
  if bool_decide (dom kwargs ⊆ print_keywords) then
    match str_or_none " " (kwargs !! "sep"),
          str_or_none NEWLINE (kwargs !! "end"),
          file_or_none (kwargs !! "file") with
    | Some sep, Some end_, Some f =>
        write f (join sep (map py_str args) +:+ end_)
    | None, _, _ => raise (TypeError "sep must be None or a string")
    | _, None, _ => raise (TypeError "end must be None or a string")
    | _, _, None => raise (AttributeError "write")
    end
  else raise (TypeError "invalid keyword argument for print()").

(** The inner function of [_create_styled_print], closed over [style_codes]. *)
Definition str_join (sep : kwval) (strings : list string) : M string :=
  match sep with
  | KData (VStr s) => ret (join s strings)
  | _ => raise (AttributeError "join")
  end.

Definition stdout_write_obj (text : kwval) : M unit :=
  match text with
  | KData (VStr s) => write sys_stdout s
  | _ => raise (TypeError "write() argument must be str")
  end.

Definition styled_print (style_codes : string)
    (args : list pyval) (kwargs : gmap string kwval) : M unit :=
  let sep := default (KData (VStr " ")) (kwargs !! "sep") in
  let end_ := default (KData (VStr NEWLINE)) (kwargs !! "end") in
  let strings := map py_str args in
  let* message := str_join sep strings in
  write sys_stdout style_codes >>
  write sys_stdout message >>
  write sys_stdout (TerminalColor.value TerminalColor.RESET) >>
  stdout_write_obj end_ >>
  flush sys_stdout.

(** Calling a callable that is bound to [builtins.print]. *)
Definition call (f : print_fn) (args : list pyval) (kwargs : gmap string kwval) : M unit :=
  match f with
  | BuiltinPrint => builtin_print args kwargs
  | StyledPrint style_codes => styled_print style_codes args kwargs
  end.

(** The global name [print], resolved when the call is made. *)
Definition print (args : list pyval) (kwargs : gmap string kwval) : M unit :=
  λ w, call (builtins_print w) args kwargs w.

(** ** The Terminal class *)

(** Instance attributes.  [_original_stdout] is read by [_write_style_begin],
    [_write_style_end] and [ColoredStdout.flush]; it is [None] on an instance
    that has no such attribute. *)
Record Terminal : Type := {
  _force_color : bool;
  _color_enabled : bool;
  _colors : gmap string string;
  _backgrounds : gmap string string;
  _styles : gmap string string;
  _original_print : print_fn;
  _style_stack : list string;
  _original_stdout : option file
}.

(** What [__init__] asks of the process: whether [sys.stdout] has an
    [isatty] method, what it answers, and [os.environ.get("NO_COLOR")]. *)
Record environment : Type := {
  stdout_has_isatty : bool;
  stdout_isatty : bool;
  NO_COLOR : option string
}.

Definition environ_get_NO_COLOR (env : environment) : pyval :=
  match NO_COLOR env with
  | Some s => VStr s
  | None => VNone
  end.

Definition __init__ (force_color : bool) (env : environment) (w : world) : Terminal :=
  {| _force_color := force_color;
     _color_enabled :=
       force_color
       || (stdout_has_isatty env
           && stdout_isatty env
           && negb (truthy (environ_get_NO_COLOR env)));
     _colors :=
       list_to_map
         (map (λ color, (lower (TerminalColor.name color), TerminalColor.value color))
              TerminalColor.members);
     _backgrounds :=
       list_to_map
         (map (λ color, (lower (BackgroundColor.name color), BackgroundColor.value color))
              BackgroundColor.members);
     _styles :=
       list_to_map
         (map (λ style, (lower (Style.name style), Style.value style))
              Style.members);
     _original_print := builtins_print w;
     _style_stack := [];
     _original_stdout := None |}.

(** [self._original_stdout]. *)
Definition getattr_original_stdout (self : Terminal) : M file :=
  match _original_stdout self with
  | Some f => ret f
  | None => raise (AttributeError "_original_stdout")
  end.

(** [name.lower()] on an object. *)
Definition py_lower (v : pyval) : M string :=
  match v with
  | VStr s => ret (lower s)
  | _ => raise (AttributeError "lower")
  end.

(** [[styles] if isinstance(styles, str) else styles]; the expression is
    evaluated for truthy [styles] only. *)
Definition style_list_of (styles : pyval) : list string :=
  match styles with
  | VStr s => [s]
  | VList l => l
  | VNone => []
  end.

Definition _create_styled_print (self : Terminal) (style_codes : string) : print_fn :=
  StyledPrint style_codes.

Definition _format_message (self : Terminal) (message prefix : pyval) : pyval :=
  if truthy prefix
  then VStr ("[" +:+ py_str prefix +:+ "] " +:+ py_str message)
  else message.

(** Binding of a call's positional and keyword arguments to a parameter
    list; a parameter is a name with its default, if it has one.  [None]
    stands for the [TypeError] of a call that does not fit. *)
Fixpoint bind_arguments (params : list (string * option pyval))
    (args : list pyval) (kwargs : gmap string pyval) : option (list pyval) :=
  match params with
  | [] =>
      match args with
      | [] => if bool_decide (kwargs = ∅) then Some [] else None
      | _ :: _ => None
      end
  | (name, dflt) :: params' =>
      match args with
      | a :: args' =>
          match kwargs !! name with
          | Some _ => None
          | None => cons a <$> bind_arguments params' args' kwargs
          end
      | [] =>
          match kwargs !! name, dflt with
          | Some v, _ => cons v <$> bind_arguments params' [] (delete name kwargs)
          | None, Some d => cons d <$> bind_arguments params' [] kwargs
          | None, None => None
          end
      end
  end.

Definition _print_styled_params : list (string * option pyval) :=
  [ ("message", None);
    ("prefix", Some VNone);
    ("fg_color", Some (VStr "default"));
    ("bg_color", Some VNone);
    ("styles", Some VNone) ].

(** The decorator: with colour off the wrapper prints its positional
    arguments and returns, otherwise it calls the wrapped method. *)
Definition check_terminal_support
    (func : Terminal → list pyval → gmap string pyval → M unit)
    : Terminal → list pyval → gmap string pyval → M unit :=
  λ self args kwargs,
    if negb (_color_enabled self) then print args ∅
    else func self args kwargs.

(** The generator of [color_context], suspended at one of its two [yield]s;
    at the second one its local [original_print] is live. *)
Inductive frame : Type :=
  | YieldPlain
  | YieldStyled (original_print : print_fn).

(** The code of [color_context] after its [yield]. *)
Definition color_context_exit (fr : frame) : M unit :=
  match fr with
  | YieldPlain => ret ()
  | YieldStyled original_print =>
      set_builtins_print original_print >>
      write sys_stdout (TerminalColor.value TerminalColor.RESET) >>
      flush sys_stdout
  end.

(** [with cm: body] for a generator-based context manager: run the generator
    to its [yield], run the body, and resume the generator, also when the
    body raised. *)
Definition with_ (enter : M frame) (exit : frame → M unit) (body : M unit) : M unit :=
  let* fr := enter in try_finally body (exit fr).

(** The methods call each other in a cycle ([_get_style_codes] reports an
    unknown name through [print_error], which prints through
    [color_context], which resolves its colour with [_get_style_codes]).
    They are written here over the method the cycle closes on. *)
Module Rec.
Section Methods.

Variable get_style_codes : Terminal → pyval → pyval → pyval → M string.

(** The code of [color_context] up to its [yield]. *)
Definition color_context_enter (self : Terminal) (fg_color bg_color styles : pyval)
    : M frame :=
  if negb (_color_enabled self) then ret YieldPlain
  else
    let* style_codes := get_style_codes self fg_color bg_color styles in
    let* original_print := get_builtins_print in
    set_builtins_print (_create_styled_print self style_codes) >>
    ret (YieldStyled original_print).

Definition color_context (self : Terminal) (fg_color bg_color styles : pyval)
    (body : M unit) : M unit :=
  with_ (color_context_enter self fg_color bg_color styles) color_context_exit body.

(** The body of [_print_styled], under the decorator. *)
Definition _print_styled_func (self : Terminal)
    (message prefix fg_color bg_color styles : pyval) : M unit :=
  let formatted_message := _format_message self message prefix in
  color_context self fg_color bg_color styles (print [formatted_message] ∅).

Definition _print_styled : Terminal → list pyval → gmap string pyval → M unit :=
  check_terminal_support
    (λ self args kwargs,
       match bind_arguments _print_styled_params args kwargs with
       | Some [message; prefix; fg_color; bg_color; styles] =>
           _print_styled_func self message prefix fg_color bg_color styles
       | _ => raise (TypeError "_print_styled() arguments")
       end).

Definition print_note (self : Terminal) (message bg_color styles : pyval) : M unit :=
  _print_styled self [message; VStr "NOTE"; VStr "green"; bg_color; styles] ∅.

Definition print_warning (self : Terminal) (message bg_color styles : pyval) : M unit :=
  _print_styled self [message; VStr "WARNING"; VStr "yellow"; bg_color; styles] ∅.

Definition print_error (self : Terminal) (message bg_color styles : pyval) : M unit :=
  _print_styled self [message; VStr "ERROR"; VStr "red"; bg_color; styles] ∅.

Definition print_info (self : Terminal) (message bg_color styles : pyval) : M unit :=
  _print_styled self [message; VStr "INFO"; VStr "cyan"; bg_color; styles] ∅.

Definition cprint (self : Terminal) (message fg_color bg_color styles : pyval) : M unit :=
  _print_styled self [message; VNone; fg_color; bg_color; styles] ∅.

(** One [if name: try: codes.append(table[name.lower()]) except KeyError: ...]
    block: [k] is the code after the block, [on_error] the [return] of the
    handler, reached after the notice [label + name] went to [print_error]. *)
Definition append_code {A} (self : Terminal) (label : string)
    (table : gmap string string) (name : pyval) (codes : list string)
    (on_error : M A) (k : list string → M A) : M A :=
  if truthy name then
    let* key := py_lower name in
    match table !! key with
    | Some code => k (codes ++ [code])
    | None => print_error self (VStr (label +:+ py_str name)) VNone VNone >> on_error
    end
  else k codes.

(** The [for style in style_list] loop, with the same handler. *)
Fixpoint for_styles {A} (self : Terminal) (style_list : list string)
    (codes : list string) (on_error : M A) (k : list string → M A) : M A :=
  match style_list with
  | [] => k codes
  | style :: rest =>
      match _styles self !! lower style with
      | Some code => for_styles self rest (codes ++ [code]) on_error k
      | None =>
          print_error self (VStr ("Invalid style: " +:+ style)) VNone VNone >> on_error
      end
  end.

Definition _get_style_codes (self : Terminal) (fg_color bg_color styles : pyval)
    : M string :=
  let codes := [] in
  append_code self "Invalid color: " (_colors self) fg_color codes (ret EmptyString)
    (λ codes,
  append_code self "Invalid background color: " (_backgrounds self) bg_color codes
    (ret EmptyString)
    (λ codes,
  if truthy styles then
    for_styles self (style_list_of styles) codes (ret EmptyString)
      (λ codes, ret (join EmptyString codes))
  else ret (join EmptyString codes))).

Definition _write_style_begin (self : Terminal) (fg_color bg_color styles : pyval)
    : M unit :=
  let codes := [] in
  let write_codes (codes : list string) : M unit :=
    match codes with
    | [] => ret ()
    | _ :: _ =>
        let* out := getattr_original_stdout self in
        write out (join EmptyString codes) >>
        let* out := getattr_original_stdout self in
        flush out
    end in
  append_code self "Invalid color: " (_colors self) fg_color codes (ret ())
    (λ codes,
  append_code self "Invalid background color: " (_backgrounds self) bg_color codes
    (ret ())
    (λ codes,
  if truthy styles then
    for_styles self (style_list_of styles) codes (ret ()) write_codes
  else write_codes codes)).

End Methods.
End Rec.

Definition _write_style_end (self : Terminal) : M unit :=
  let* out := getattr_original_stdout self in
  write out (TerminalColor.value TerminalColor.RESET) >>
  let* out := getattr_original_stdout self in
  flush out.

(** The cycle is closed with a recursion budget; two levels are all a call
    ever uses. *)
Fixpoint _get_style_codes (fuel : nat) : Terminal → pyval → pyval → pyval → M string :=
  match fuel with
  | 0 => λ _ _ _ _ w, (NoFuel, w)
  | S fuel' => Rec._get_style_codes (_get_style_codes fuel')
  end.

Definition color_context_enter (fuel : nat) := Rec.color_context_enter (_get_style_codes fuel).
Definition color_context (fuel : nat) := Rec.color_context (_get_style_codes fuel).
Definition _print_styled (fuel : nat) := Rec._print_styled (_get_style_codes fuel).
Definition print_note (fuel : nat) := Rec.print_note (_get_style_codes fuel).
Definition print_warning (fuel : nat) := Rec.print_warning (_get_style_codes fuel).
Definition print_error (fuel : nat) := Rec.print_error (_get_style_codes fuel).
Definition print_info (fuel : nat) := Rec.print_info (_get_style_codes fuel).
Definition cprint (fuel : nat) := Rec.cprint (_get_style_codes fuel).
Definition _write_style_begin (fuel : nat) := Rec._write_style_begin (_get_style_codes fuel).

(** ** ColoredStdout *)

Record ColoredStdout : Type := {
  terminal : Terminal;
  buffer : list string
}.

Definition ColoredStdout_init (terminal : Terminal) : ColoredStdout :=
  {| terminal := terminal; buffer := [] |}.

Definition ColoredStdout_write (self : ColoredStdout) (text : string) : ColoredStdout :=
  {| terminal := terminal self; buffer := buffer self ++ [text] |}.

Definition ColoredStdout_flush (self : ColoredStdout) : M ColoredStdout :=
  match buffer self with
  | [] => ret self
  | _ :: _ =>
      let text := join EmptyString (buffer self) in
      let* out := getattr_original_stdout (terminal self) in
      write out text >>
      let* out := getattr_original_stdout (terminal self) in
      flush out >>
      ret {| terminal := terminal self; buffer := [] |}
  end.

(** ** Vocabulary of the statements *)


(** Two characters that are equal or are the two cases of one of the
    letters A-Z. *)
Definition same_letter (a b : ascii) : bool :=
  let x := Ascii.nat_of_ascii a in
  let y := Ascii.nat_of_ascii b in
  Ascii.eqb a b
  || ((65 <=? x) && (x <=? 90) && (y =? x + 32))
  || ((65 <=? y) && (y <=? 90) && (x =? y + 32)).

(** [case_variant s k]: [s] is [k] up to the case of its letters. *)
Fixpoint case_variant (s k : string) : bool :=
  match s, k with
  | EmptyString, EmptyString => true
  | String a s', String b k' => same_letter a b && case_variant s' k'
  | _, _ => false
  end.

(** Decimal numeral of a small number, and the SGR sequence with that
    parameter. *)
Definition digit (n : nat) : ascii := Ascii.ascii_of_nat (48 + n).

Definition numeral (n : nat) : string :=
  if n <? 10 then String (digit n) EmptyString
  else if n <? 100 then String (digit (n / 10)) (String (digit (n mod 10)) EmptyString)
  else String (digit (n / 100))
         (String (digit (n / 10 mod 10)) (String (digit (n mod 10)) EmptyString)).

Definition sgr (n : nat) : string := esc ("[" +:+ numeral n +:+ "m").

(** The documented escape sequence table: the place of a colour in the
    palette, foregrounds at 30 + place (bright ones at 90 + place),
    backgrounds ten above the foreground, and the eight style parameters. *)
Definition palette_place (name : string) : option (bool * nat) :=
  if String.eqb name "black" then Some (false, 0)
  else if String.eqb name "red" then Some (false, 1)
  else if String.eqb name "green" then Some (false, 2)
  else if String.eqb name "yellow" then Some (false, 3)
  else if String.eqb name "blue" then Some (false, 4)
  else if String.eqb name "magenta" then Some (false, 5)
  else if String.eqb name "cyan" then Some (false, 6)
  else if String.eqb name "light_gray" then Some (false, 7)
  else if String.eqb name "default" then Some (false, 9)
  else if String.eqb name "dark_gray" then Some (true, 0)
  else if String.eqb name "light_red" then Some (true, 1)
  else if String.eqb name "light_green" then Some (true, 2)
  else if String.eqb name "light_yellow" then Some (true, 3)
  else if String.eqb name "light_blue" then Some (true, 4)
  else if String.eqb name "light_magenta" then Some (true, 5)
  else if String.eqb name "light_cyan" then Some (true, 6)
  else if String.eqb name "white" then Some (true, 7)
  else None.

Definition documented_foreground (name : string) : option string :=
  match palette_place name with
  | Some (bright, place) => Some (sgr ((if bright then 90 else 30) + place))
  | None => None
  end.

Definition documented_background (name : string) : option string :=
  match palette_place name with
  | Some (bright, place) => Some (sgr ((if bright then 100 else 40) + place))
  | None => None
  end.

Definition documented_style (x : Style.t) : string :=
  match x with
  | Style.BOLD => sgr 1
  | Style.DIM => sgr 2
  | Style.ITALIC => sgr 3
  | Style.UNDERLINE => sgr 4
  | Style.BLINK => sgr 5
  | Style.REVERSE => sgr 7
  | Style.HIDDEN => sgr 8
  | Style.STRIKE => sgr 9
  end.

Definition documented_reset : string := sgr 0.

(** Concatenation of codes, left to right. *)
Definition concat_codes (codes : list string) : string :=
  foldr String.append EmptyString codes.

(** A colour argument of the annotated type: [None] or a [str]. *)
Definition is_name (v : pyval) : bool :=
  match v with
  | VList _ => false
  | _ => true
  end.

(** The names a style request has looked up, in the order of the lookups,
    each with the label of its notice and its table: the foreground and the
    background if they are truthy, then the styles. *)
Definition requested_names (self : Terminal) (fg_color bg_color styles : pyval)
    : list (string * gmap string string * string) :=
  (if truthy fg_color then [("Invalid color: ", _colors self, py_str fg_color)] else [])
  ++ (if truthy bg_color
      then [("Invalid background color: ", _backgrounds self, py_str bg_color)] else [])
  ++ (if truthy styles
      then map (λ style, ("Invalid style: ", _styles self, style)) (style_list_of styles)
      else []).

(** A requested name that its table does not have. *)
Definition absent (entry : string * gmap string string * string) : Prop :=
  entry.1.2 !! lower entry.2 = None.

(** Lookup of a list of names one after the other: the codes found, or the
    first name that is absent, with its label. *)
Fixpoint resolve_all (names : list (string * gmap string string * string))
    (codes : list string) : string * string + list string :=
  match names with
  | [] => inr codes
  | (label, table, name) :: rest =>
      match table !! lower name with
      | Some code => resolve_all rest (codes ++ [code])
      | None => inl (label, name)
      end
  end.

(** The text of a keyword argument that is a [str], or the default when the
    keyword is not given. *)
Definition keyword_text (dflt : string) (o : option kwval) : option string :=
  match o with
  | None => Some dflt
  | Some (KData (VStr s)) => Some s
  | Some _ => None
  end.

(** What [print_error] adds to [sys.stdout] with colour on. *)
Definition error_notice (message : string) : string :=
  TerminalColor.value TerminalColor.RED +:+ "[ERROR] " +:+ message
  +:+ TerminalColor.value TerminalColor.RESET +:+ NEWLINE
  +:+ TerminalColor.value TerminalColor.RESET.

(** The state after [text] went to [sys.stdout], and the state with
    [builtins.print] bound to [p]. *)
Definition emit (text : string) (w : world) : world :=
  World (stdout_text w +:+ text) (stderr_text w) (builtins_print w).

Definition rebind (p : print_fn) (w : world) : world :=
  World (stdout_text w) (stderr_text w) p.

(** What a call of [print] without keywords adds to [sys.stdout], by the
    callable [builtins.print] is bound to. *)
Definition plain_output (p : print_fn) (args : list pyval) : string :=
  match p with
  | BuiltinPrint => join " " (map py_str args) +:+ NEWLINE
  | StyledPrint style_codes =>
      style_codes +:+ join " " (map py_str args)
      +:+ TerminalColor.value TerminalColor.RESET +:+ NEWLINE
  end.

(** What [print_error] adds to [sys.stdout]. *)
Definition notice_output (self : Terminal) (p : print_fn) (message : string) : string :=
  if _color_enabled self then error_notice message
  else plain_output p [VStr message; VStr "ERROR"; VStr "red"; VNone; VNone].

(** The handler of an unknown name: the notice, then the handler's
    [return]. *)
Definition report {A} (g : Terminal → pyval → pyval → pyval → M string)
    (self : Terminal) (on_error : M A) (label name : string) : M A :=
  Rec.print_error g self (VStr (label +:+ name)) VNone VNone >> on_error.

(** A background argument that names the member [b] up to case, or no
    background at all. *)
Definition names_background (v : pyval) (b : option BackgroundColor.t) : Prop :=
  match b with
  | None => v = VNone
  | Some b => ∃ s, v = VStr s ∧ case_variant s (BackgroundColor.name b) = true
  end.

(** A [styles] argument that names the members [xs], in order, up to case:
    [None], one name, or a list of names. *)
Inductive names_styles : pyval → list Style.t → Prop :=
  | names_styles_none : names_styles VNone []
  | names_styles_one s x :
      case_variant s (Style.name x) = true → names_styles (VStr s) [x]
  | names_styles_list l xs :
      Forall2 (λ s x, case_variant s (Style.name x) = true) l xs →
      names_styles (VList l) xs.

Definition background_code (b : option BackgroundColor.t) : string :=
  match b with
  | Some b => BackgroundColor.value b
  | None => EmptyString
  end.

(** A requested name that its table has. *)
Definition present (entry : string * gmap string string * string) : Prop :=
  is_Some (entry.1.2 !! lower entry.2).

(** The state after [text] went to the stream [f]. *)
Definition emit_to (f : file) (text : string) (w : world) : world :=
  match f with
  | sys_stdout => emit text w
  | sys_stderr => World (stdout_text w) (stderr_text w +:+ text) (builtins_print w)
  end.

(** The instance after an assignment [self._original_stdout = f] made by
    the code that uses it. *)
Definition assign_original_stdout (self : Terminal) (f : file) : Terminal :=
  {| _force_color := _force_color self;
     _color_enabled := _color_enabled self;
     _colors := _colors self;
     _backgrounds := _backgrounds self;
     _styles := _styles self;
     _original_print := _original_print self;
     _style_stack := _style_stack self;
     _original_stdout := Some f |}.

(** A block of [print] statements without keywords, one per argument list. *)
Fixpoint print_all (lines : list (list pyval)) : M unit :=
  match lines with
  | [] => ret ()
  | args :: rest => print args ∅ >> print_all rest
  end.

(** The texts a block of [print] statements writes under the callable [p]. *)
Definition block_output (p : print_fn) (lines : list (list pyval)) : string :=
  concat_codes (map (plain_output p) lines).

(** A requested name together with the code its table has for it. *)
Definition found_in (entry : string * gmap string string * string) (code : string) : Prop :=
  entry.1.2 !! lower entry.2 = Some code.

(** Sample instances and states. *)
Definition fresh_world : world := World EmptyString EmptyString BuiltinPrint.
Definition no_tty : environment :=
  {| stdout_has_isatty := true; stdout_isatty := false; NO_COLOR := None |}.
Definition term_color_on : Terminal := __init__ true no_tty fresh_world.
Definition term_color_off : Terminal := __init__ false no_tty fresh_world.

(** * Properties *)

(** ** Strings *)

Lemma string_app_cons (x : ascii) (a b : string) :
  String x a +:+ b = String x (a +:+ b).
Proof. reflexivity. Qed.

Lemma string_app_nil_l (a : string) : EmptyString +:+ a = a.
Proof. reflexivity. Qed.

Lemma string_app_assoc (a b c : string) : (a +:+ b) +:+ c = a +:+ (b +:+ c).
Proof.
  induction a as [|x a IH]; [reflexivity |].
  by rewrite !string_app_cons, IH.
Qed.

Lemma string_app_nil_r (a : string) : a +:+ EmptyString = a.
Proof.
  induction a as [|x a IH]; [reflexivity |].
  by rewrite string_app_cons, IH.
Qed.



Lemma concat_codes_cons (x : string) (l : list string) :
  concat_codes (x :: l) = x +:+ concat_codes l.
Proof. reflexivity. Qed.

Lemma join_empty_concat (codes : list string) :
  join EmptyString codes = concat_codes codes.
Proof.
  induction codes as [|x l IH]; [reflexivity |].
  rewrite concat_codes_cons, <- IH.
  destruct l as [|y l]; [by rewrite string_app_nil_r | reflexivity].
Qed.

Lemma concat_codes_app (l1 l2 : list string) :
  concat_codes (l1 ++ l2) = concat_codes l1 +:+ concat_codes l2.
Proof.
  induction l1 as [|x l1 IH]; [reflexivity |].
  rewrite <- app_comm_cons, !concat_codes_cons, IH.
  by rewrite string_app_assoc.
Qed.

(** A case variant of a name has the lower-case form of the name. *)
Lemma same_letter_lower (a b : ascii) :
  same_letter a b = true → lower_char a = lower_char b.
Proof.
  unfold same_letter, lower_char, is_upper.
  intros H.
  apply orb_true_iff in H as [H|H]; [apply orb_true_iff in H as [H|H] |].
  - apply Ascii.eqb_eq in H. by subst.
  - apply andb_true_iff in H as [H Hy]. apply andb_true_iff in H as [H1 H2].
    apply Nat.leb_le in H1, H2. apply Nat.eqb_eq in Hy.
    rewrite Hy.
    replace ((65 <=? Ascii.nat_of_ascii a) && (Ascii.nat_of_ascii a <=? 90)) with true
      by (symmetry; apply andb_true_iff; split; apply Nat.leb_le; lia).
    replace ((65 <=? Ascii.nat_of_ascii a + 32) && (Ascii.nat_of_ascii a + 32 <=? 90))
      with false
      by (symmetry; apply andb_false_iff; right; apply Nat.leb_gt; lia).
    replace (192 <=? Ascii.nat_of_ascii a + 32) with false
      by (symmetry; apply Nat.leb_gt; lia).
    simpl. rewrite <- Hy. by rewrite Ascii.ascii_nat_embedding.
  - apply andb_true_iff in H as [H Hx]. apply andb_true_iff in H as [H1 H2].
    apply Nat.leb_le in H1, H2. apply Nat.eqb_eq in Hx.
    rewrite Hx.
    replace ((65 <=? Ascii.nat_of_ascii b) && (Ascii.nat_of_ascii b <=? 90)) with true
      by (symmetry; apply andb_true_iff; split; apply Nat.leb_le; lia).
    replace ((65 <=? Ascii.nat_of_ascii b + 32) && (Ascii.nat_of_ascii b + 32 <=? 90))
      with false
      by (symmetry; apply andb_false_iff; right; apply Nat.leb_gt; lia).
    replace (192 <=? Ascii.nat_of_ascii b + 32) with false
      by (symmetry; apply Nat.leb_gt; lia).
    simpl. rewrite <- Hx. by rewrite Ascii.ascii_nat_embedding.
Qed.

Lemma case_variant_lower (s k : string) :
  case_variant s k = true → lower s = lower k.
Proof.
  revert k. induction s as [|a s IH]; intros [|b k]; simpl; try done.
  intros H. apply andb_true_iff in H as [Hab Hsk].
  by rewrite (same_letter_lower a b Hab), (IH k Hsk).
Qed.

(** ** Printing *)

Lemma emit_emit (a b : string) (w : world) : emit b (emit a w) = emit (a +:+ b) w.
Proof. unfold emit; simpl. by rewrite string_app_assoc. Qed.

Lemma emit_nil (w : world) : emit EmptyString w = w.
Proof. destruct w. unfold emit; simpl. by rewrite string_app_nil_r. Qed.

Lemma builtin_print_plain (args : list pyval) (w : world) :
  builtin_print args ∅ w
  = (Return (), emit (join " " (map py_str args) +:+ NEWLINE) w).
Proof.
  unfold builtin_print.
  rewrite bool_decide_eq_true_2 by (rewrite dom_empty_L; set_solver).
  rewrite !lookup_empty. reflexivity.
Qed.

Lemma styled_print_plain (style_codes : string) (args : list pyval) (w : world) :
  styled_print style_codes args ∅ w
  = (Return (),
     emit (style_codes +:+ join " " (map py_str args)
           +:+ TerminalColor.value TerminalColor.RESET +:+ NEWLINE) w).
Proof.
  unfold styled_print. rewrite !lookup_empty.
  unfold emit. simpl. unfold bind, write, flush, ret; simpl.
  by rewrite !string_app_assoc.
Qed.

(** ** Resolution of a style request *)

Lemma bind_ret_l {A B} (a : A) (k : A → M B) (w : world) : bind (ret a) k w = k a w.
Proof. reflexivity. Qed.

Lemma resolve_all_app names1 names2 codes :
  resolve_all (names1 ++ names2) codes
  = match resolve_all names1 codes with
    | inr codes' => resolve_all names2 codes'
    | inl e => inl e
    end.
Proof.
  revert codes. induction names1 as [|[[label table] name] rest IH]; intros codes.
  - reflexivity.
  - simpl. destruct (table !! lower name); [apply IH | reflexivity].
Qed.

(** A truthy colour argument of the annotated type is a non-empty [str]. *)
Lemma truthy_name (v : pyval) :
  is_name v = true → truthy v = true → v = VStr (py_str v).
Proof. destruct v as [|s|l]; simpl; try done. Qed.

Section Cycle.

Context {A : Type}.
Variable g : Terminal → pyval → pyval → pyval → M string.
Variable self : Terminal.
Variable on_error : M A.

Lemma append_code_resolve label table name codes (k : list string → M A) w :
  is_name name = true →
  Rec.append_code g self label table name codes on_error k w
  = match resolve_all (if truthy name then [(label, table, py_str name)] else []) codes with
    | inr codes' => k codes' w
    | inl (label', name') => report g self on_error label' name' w
    end.
Proof.
  intros Hname. unfold Rec.append_code.
  destruct (truthy name) eqn:Ht; [| reflexivity].
  rewrite (truthy_name name Hname Ht) at 1.
  simpl. rewrite bind_ret_l.
  destruct (table !! lower (py_str name)); reflexivity.
Qed.

Lemma for_styles_resolve style_list codes (k : list string → M A) w :
  Rec.for_styles g self style_list codes on_error k w
  = match resolve_all
            (map (λ style, ("Invalid style: ", _styles self, style)) style_list) codes with
    | inr codes' => k codes' w
    | inl (label', name') => report g self on_error label' name' w
    end.
Proof.
  revert codes. induction style_list as [|style rest IH]; intros codes; simpl.
  - reflexivity.
  - destruct (_styles self !! lower style); [apply IH | reflexivity].
Qed.

Lemma lookups_resolve fg_color bg_color styles (k : list string → M A) w :
  is_name fg_color = true → is_name bg_color = true →
  Rec.append_code g self "Invalid color: " (_colors self) fg_color [] on_error
    (λ codes,
       Rec.append_code g self "Invalid background color: " (_backgrounds self)
         bg_color codes on_error
         (λ codes,
            if truthy styles
            then Rec.for_styles g self (style_list_of styles) codes on_error k
            else k codes)) w
  = match resolve_all (requested_names self fg_color bg_color styles) [] with
    | inr codes => k codes w
    | inl (label, name) => report g self on_error label name w
    end.
Proof.
  intros Hfg Hbg. unfold requested_names.
  rewrite append_code_resolve by done.
  rewrite resolve_all_app.
  destruct (resolve_all (if truthy fg_color then _ else _) []) as [[l n]|codes1];
    [reflexivity |].
  rewrite append_code_resolve by done.
  rewrite resolve_all_app.
  destruct (resolve_all (if truthy bg_color then _ else _) codes1) as [[l n]|codes2];
    [reflexivity |].
  destruct (truthy styles); [apply for_styles_resolve | reflexivity].
Qed.

End Cycle.

Lemma Rec_get_style_codes_resolve g self fg_color bg_color styles w :
  is_name fg_color = true → is_name bg_color = true →
  Rec._get_style_codes g self fg_color bg_color styles w
  = match resolve_all (requested_names self fg_color bg_color styles) [] with
    | inr codes => (Return (concat_codes codes), w)
    | inl (label, name) =>
        (Rec.print_error g self (VStr (label +:+ name)) VNone VNone >> ret EmptyString) w
    end.
Proof.
  intros Hfg Hbg. unfold Rec._get_style_codes.
  rewrite lookups_resolve by done.
  destruct (resolve_all _ _) as [[l n]|codes]; [reflexivity |].
  unfold ret. by rewrite join_empty_concat.
Qed.

(** ** The scoped context and the styled print *)

Lemma print_plain (args : list pyval) (w : world) :
  print args ∅ w = (Return (), emit (plain_output (builtins_print w) args) w).
Proof.
  unfold print, call, plain_output.
  destruct (builtins_print w); [apply builtin_print_plain | apply styled_print_plain].
Qed.

Lemma bind_arguments_positional (message prefix fg_color bg_color styles : pyval) :
  bind_arguments _print_styled_params [message; prefix; fg_color; bg_color; styles] ∅
  = Some [message; prefix; fg_color; bg_color; styles].
Proof.
  unfold _print_styled_params. simpl. rewrite !lookup_empty. simpl.
  by rewrite bool_decide_eq_true_2.
Qed.

Lemma try_finally_ret {A} (body : M A) (w : world) :
  try_finally body (ret ()) w = body w.
Proof. unfold try_finally, ret. by destruct (body w) as [[a|e|] w1]. Qed.

Lemma color_context_disabled g self fg_color bg_color styles body w :
  _color_enabled self = false →
  Rec.color_context g self fg_color bg_color styles body w = body w.
Proof.
  intros Hoff. unfold Rec.color_context, with_, Rec.color_context_enter.
  rewrite Hoff. simpl. rewrite bind_ret_l. apply try_finally_ret.
Qed.

Lemma color_context_enter_enabled g self fg_color bg_color styles w codes w1 :
  _color_enabled self = true →
  g self fg_color bg_color styles w = (Return codes, w1) →
  Rec.color_context_enter g self fg_color bg_color styles w
  = (Return (YieldStyled (builtins_print w1)), rebind (StyledPrint codes) w1).
Proof.
  intros Hon Hg. unfold Rec.color_context_enter. rewrite Hon. simpl.
  unfold bind. rewrite Hg. reflexivity.
Qed.

Lemma color_context_enabled g self fg_color bg_color styles body w codes w1 :
  _color_enabled self = true →
  g self fg_color bg_color styles w = (Return codes, w1) →
  Rec.color_context g self fg_color bg_color styles body w
  = match body (rebind (StyledPrint codes) w1) with
    | (NoFuel, w2) => (NoFuel, w2)
    | (r, w2) =>
        (r, emit (TerminalColor.value TerminalColor.RESET) (rebind (builtins_print w1) w2))
    end.
Proof.
  intros Hon Hg. unfold Rec.color_context, with_, bind.
  rewrite (color_context_enter_enabled _ _ _ _ _ _ _ _ Hon Hg).
  unfold try_finally.
  destruct (body _) as [[a|e|] w2]; reflexivity.
Qed.

(** The decorated method body with colour on, once the codes are known. *)
Lemma print_styled_func_enabled g self message prefix fg_color bg_color styles w codes w1 :
  _color_enabled self = true →
  g self fg_color bg_color styles w = (Return codes, w1) →
  Rec._print_styled_func g self message prefix fg_color bg_color styles w
  = (Return (),
     emit (codes +:+ py_str (_format_message self message prefix)
           +:+ TerminalColor.value TerminalColor.RESET +:+ NEWLINE
           +:+ TerminalColor.value TerminalColor.RESET) w1).
Proof.
  intros Hon Hg. unfold Rec._print_styled_func.
  rewrite (color_context_enabled _ _ _ _ _ _ _ _ _ Hon Hg).
  rewrite print_plain. simpl builtins_print. unfold plain_output.
  destruct w1 as [out err p]. unfold emit, rebind; simpl.
  by rewrite !string_app_assoc.
Qed.

Lemma get_style_codes_red n self w :
  _colors self !! "red" = Some (TerminalColor.value TerminalColor.RED) →
  _get_style_codes (S n) self (VStr "red") VNone VNone w
  = (Return (TerminalColor.value TerminalColor.RED), w).
Proof.
  intros Hred. simpl. rewrite Rec_get_style_codes_resolve by done.
  unfold requested_names. simpl.
  change (_colors self !! _) with (_colors self !! "red").
  by rewrite Hred.
Qed.

Lemma print_styled_positional g self message prefix fg_color bg_color styles :
  _color_enabled self = true →
  Rec._print_styled g self [message; prefix; fg_color; bg_color; styles] ∅
  = Rec._print_styled_func g self message prefix fg_color bg_color styles.
Proof.
  intros Hon. unfold Rec._print_styled, check_terminal_support.
  rewrite Hon. simpl negb. cbv iota.
  by rewrite bind_arguments_positional.
Qed.

Lemma print_styled_off g self args kwargs :
  _color_enabled self = false →
  Rec._print_styled g self args kwargs = print args ∅.
Proof.
  intros Hoff. unfold Rec._print_styled, check_terminal_support.
  by rewrite Hoff.
Qed.

Lemma print_error_output n self message w :
  _colors self !! "red" = Some (TerminalColor.value TerminalColor.RED) →
  Rec.print_error (_get_style_codes (S n)) self (VStr message) VNone VNone w
  = (Return (), emit (notice_output self (builtins_print w) message) w).
Proof.
  intros Hred. unfold Rec.print_error, notice_output.
  destruct (_color_enabled self) eqn:Hon.
  - rewrite print_styled_positional by done.
    rewrite (print_styled_func_enabled _ _ _ _ _ _ _ _ _ _ Hon
               (get_style_codes_red n self w Hred)).
    reflexivity.
  - rewrite print_styled_off by done. apply print_plain.
Qed.

(** Resolution with two levels of budget: the codes, or the empty string
    after the notice for the first absent name. *)
Lemma get_style_codes_resolve n self fg_color bg_color styles w :
  _colors self !! "red" = Some (TerminalColor.value TerminalColor.RED) →
  is_name fg_color = true → is_name bg_color = true →
  _get_style_codes (S (S n)) self fg_color bg_color styles w
  = match resolve_all (requested_names self fg_color bg_color styles) [] with
    | inr codes => (Return (concat_codes codes), w)
    | inl (label, name) =>
        (Return EmptyString,
         emit (notice_output self (builtins_print w) (label +:+ name)) w)
    end.
Proof.
  intros Hred Hfg Hbg.
  change (_get_style_codes (S (S n))) with (Rec._get_style_codes (_get_style_codes (S n))).
  rewrite Rec_get_style_codes_resolve by done.
  destruct (resolve_all _ _) as [[label name]|codes]; [| reflexivity].
  unfold bind. by rewrite print_error_output.
Qed.

(** Two levels of budget are enough: with them the result is a value, and
    more budget does not change it. *)
Lemma get_style_codes_fuel n m self fg_color bg_color styles w :
  _colors self !! "red" = Some (TerminalColor.value TerminalColor.RED) →
  is_name fg_color = true → is_name bg_color = true →
  _get_style_codes (S (S n)) self fg_color bg_color styles w
  = _get_style_codes (S (S m)) self fg_color bg_color styles w.
Proof. intros Hred Hfg Hbg. by rewrite !get_style_codes_resolve. Qed.

(** The five print methods are calls of [_print_styled] with five
    positional arguments. *)
Lemma wrappers_call_print_styled fuel self message fg_color bg_color styles :
  print_note fuel self message bg_color styles
  = _print_styled fuel self [message; VStr "NOTE"; VStr "green"; bg_color; styles] ∅
  ∧ print_warning fuel self message bg_color styles
    = _print_styled fuel self [message; VStr "WARNING"; VStr "yellow"; bg_color; styles] ∅
  ∧ print_error fuel self message bg_color styles
    = _print_styled fuel self [message; VStr "ERROR"; VStr "red"; bg_color; styles] ∅
  ∧ print_info fuel self message bg_color styles
    = _print_styled fuel self [message; VStr "INFO"; VStr "cyan"; bg_color; styles] ∅
  ∧ cprint fuel self message fg_color bg_color styles
    = _print_styled fuel self [message; VNone; fg_color; bg_color; styles] ∅.
Proof. repeat split. Qed.

(** ** Instances made by the constructor *)

Section Constructed.

Variables (force_color : bool) (env : environment) (w_init : world).

Lemma init_colors (c : TerminalColor.t) :
  _colors (__init__ force_color env w_init) !! lower (TerminalColor.name c)
  = Some (TerminalColor.value c).
Proof. destruct c; vm_compute; reflexivity. Qed.

Lemma init_backgrounds (b : BackgroundColor.t) :
  _backgrounds (__init__ force_color env w_init) !! lower (BackgroundColor.name b)
  = Some (BackgroundColor.value b).
Proof. destruct b; vm_compute; reflexivity. Qed.

Lemma init_styles (x : Style.t) :
  _styles (__init__ force_color env w_init) !! lower (Style.name x)
  = Some (Style.value x).
Proof. destruct x; vm_compute; reflexivity. Qed.

Lemma init_colors_red :
  _colors (__init__ force_color env w_init) !! "red"
  = Some (TerminalColor.value TerminalColor.RED).
Proof. apply (init_colors TerminalColor.RED). Qed.

End Constructed.

Lemma case_variant_truthy (s k : string) :
  case_variant s k = true → k ≠ EmptyString → truthy (VStr s) = true.
Proof. destruct s, k; simpl; done. Qed.

Lemma resolve_all_styles (self : Terminal) (l : list string) (xs : list Style.t)
    (codes : list string) :
  (∀ x, _styles self !! lower (Style.name x) = Some (Style.value x)) →
  Forall2 (λ s x, case_variant s (Style.name x) = true) l xs →
  resolve_all (map (λ style, ("Invalid style: ", _styles self, style)) l) codes
  = inr (codes ++ map Style.value xs).
Proof.
  intros Htable H. revert codes.
  induction H as [|s x l xs Hsx _ IH]; intros codes; simpl.
  - by rewrite app_nil_r.
  - rewrite (case_variant_lower _ _ Hsx), Htable, IH.
    by rewrite <- app_assoc.
Qed.

(** C4. Every supported foreground, background and style name resolves,
    in any mix of upper and lower case, to the escape sequence of its
    member, and the codes of a request are concatenated in the order
    foreground, background, styles as given.  The sequences are the
    documented ones: foregrounds at 30 + palette place, bright ones at
    90 + place (white at 97), backgrounds ten above, the eight style
    parameters, and the reset sequence for the member [RESET]. *)
Theorem resolve_case_insensitive_exact
    (n : nat) (force_color : bool) (env : environment) (w_init w : world)
    (c : TerminalColor.t) (fg_color : string)
    (bg_color : pyval) (b : option BackgroundColor.t)
    (styles : pyval) (xs : list Style.t) :
  case_variant fg_color (TerminalColor.name c) = true →
  names_background bg_color b →
  names_styles styles xs →
  _get_style_codes (S n) (__init__ force_color env w_init) (VStr fg_color) bg_color styles w
  = (Return (TerminalColor.value c +:+ background_code b
             +:+ concat_codes (map Style.value xs)), w)
  ∧ (c ≠ TerminalColor.RESET →
     documented_foreground (lower (TerminalColor.name c)) = Some (TerminalColor.value c))
  ∧ TerminalColor.value TerminalColor.RESET = documented_reset
  ∧ (∀ b', documented_background (lower (BackgroundColor.name b'))
           = Some (BackgroundColor.value b'))
  ∧ (∀ x, Style.value x = documented_style x).
Proof.
  intros Hfg Hbg Hst.
  split; [| split; [| split; [| split]]].
  - set (self := __init__ force_color env w_init).
    assert (Hc : _colors self !! lower fg_color = Some (TerminalColor.value c))
      by (rewrite (case_variant_lower _ _ Hfg); apply init_colors).
    assert (Hs : ∀ x, _styles self !! lower (Style.name x) = Some (Style.value x))
      by (intros x; apply init_styles).
    assert (Hb : ∀ b', _backgrounds self !! lower (BackgroundColor.name b')
                       = Some (BackgroundColor.value b'))
      by (intros b'; apply init_backgrounds).
    clearbody self.
    assert (Hbn : is_name bg_color = true).
    { destruct b as [b|]; simpl in Hbg; [destruct Hbg as (s & -> & _) | subst]; done. }
    change (_get_style_codes (S n)) with (Rec._get_style_codes (_get_style_codes n)).
    rewrite Rec_get_style_codes_resolve by done.
    unfold requested_names.
    rewrite (case_variant_truthy _ _ Hfg) by (by destruct c).
    rewrite !resolve_all_app.
    change (py_str (VStr fg_color)) with fg_color.
    cbn [resolve_all app fst snd]. rewrite Hc. cbn [app].
    assert (Hbg' :
      resolve_all
        (if truthy bg_color
         then [("Invalid background color: ", _backgrounds self, py_str bg_color)]
         else []) [TerminalColor.value c]
      = inr ([TerminalColor.value c] ++ match b with
                                        | Some b => [BackgroundColor.value b]
                                        | None => []
                                        end)).
    { destruct b as [b|]; simpl in Hbg.
      - destruct Hbg as (s & -> & Hs').
        rewrite (case_variant_truthy _ _ Hs') by (by destruct b).
        cbn [resolve_all py_str]. rewrite (case_variant_lower _ _ Hs'), Hb.
        reflexivity.
      - subst. reflexivity. }
    rewrite resolve_all_app, Hbg'.
    assert (Hst' :
      ∀ codes,
        resolve_all
          (if truthy styles
           then map (λ style, ("Invalid style: ", _styles self, style)) (style_list_of styles)
           else []) codes
        = inr (codes ++ map Style.value xs)).
    { intros codes. destruct Hst as [|s x Hsx|l xs Hl].
      - simpl. by rewrite app_nil_r.
      - rewrite (case_variant_truthy _ _ Hsx) by (by destruct x).
        apply resolve_all_styles; [done |]. by constructor.
      - destruct l as [|s l].
        + inversion Hl; subst. simpl. by rewrite app_nil_r.
        + change (truthy (VList (s :: l))) with true. cbv iota.
          by apply resolve_all_styles. }
    rewrite Hst'. f_equal. f_equal.
    rewrite !concat_codes_app, string_app_assoc.
    rewrite (concat_codes_cons (TerminalColor.value c) []).
    change (concat_codes []) with EmptyString. rewrite string_app_nil_r.
    destruct b as [b|]; [| reflexivity].
    rewrite (concat_codes_cons (BackgroundColor.value b) []).
    change (concat_codes []) with EmptyString. by rewrite string_app_nil_r.
  - intros Hne. destruct c; try done; vm_compute; reflexivity.
  - reflexivity.
  - intros b'. destruct b'; vm_compute; reflexivity.
  - intros x. destruct x; reflexivity.
Qed.

Lemma resolve_case_insensitive_exact_witness :
  _get_style_codes 1 term_color_on (VStr "GrEeN") (VStr "Yellow")
    (VList ["BOLD"; "underLine"]) fresh_world
  = (Return (esc "[32m" +:+ esc "[43m" +:+ esc "[1m" +:+ esc "[4m"), fresh_world).
Proof.
  refine (proj1 (resolve_case_insensitive_exact 0 true no_tty fresh_world fresh_world
            TerminalColor.GREEN "GrEeN" (VStr "Yellow") (Some BackgroundColor.YELLOW)
            (VList ["BOLD"; "underLine"]) [Style.BOLD; Style.UNDERLINE] _ _ _)).
  - reflexivity.
  - exists "Yellow". split; reflexivity.
  - constructor. repeat constructor.
Defined.

(** The calls of the module's usage example, with colour on. *)
Example usage_custom_styling :
  cprint 2 term_color_on (VStr "Bold blue text on yellow background")
    (VStr "blue") (VStr "yellow") (VStr "bold") fresh_world
  = (Return (),
     emit (esc "[34m" +:+ esc "[43m" +:+ esc "[1m"
           +:+ "Bold blue text on yellow background"
           +:+ esc "[0m" +:+ NEWLINE +:+ esc "[0m") fresh_world).
Proof. vm_compute. reflexivity. Qed.

Example usage_context_manager :
  color_context 2 term_color_on (VStr "red") (VStr "light_gray")
    (VList ["bold"; "underline"])
    (print [VStr "first"] ∅ >> print [VStr "second"] ∅) fresh_world
  = (Return (),
     emit (esc "[31m" +:+ esc "[47m" +:+ esc "[1m" +:+ esc "[4m" +:+ "first"
           +:+ esc "[0m" +:+ NEWLINE
           +:+ esc "[31m" +:+ esc "[47m" +:+ esc "[1m" +:+ esc "[4m" +:+ "second"
           +:+ esc "[0m" +:+ NEWLINE +:+ esc "[0m") fresh_world).
Proof. vm_compute. reflexivity. Qed.

(** ** Unknown names *)

Lemma resolve_all_absent names codes :
  Exists absent names →
  ∃ label table name,
    (label, table, name) ∈ names
    ∧ absent (label, table, name)
    ∧ resolve_all names codes = inl (label, name).
Proof.
  intros H. revert codes.
  induction names as [|[[label table] name] rest IH]; intros codes.
  - inversion H.
  - simpl. destruct (table !! lower name) as [code|] eqn:Hlook.
    + apply Exists_cons in H as [H|H]; [unfold absent in H; simpl in H; congruence |].
      destruct (IH H (codes ++ [code])) as (l & t & nm & Hin & Habs & Hres).
      exists l, t, nm. split; [by apply list_elem_of_further | done].
    + exists label, table, name. split; [by apply list_elem_of_here | done].
Qed.

Lemma notice_output_names self p message :
  ∃ before after, notice_output self p message = before +:+ message +:+ after.
Proof.
  unfold notice_output, error_notice, plain_output.
  destruct (_color_enabled self); [| destruct p as [|style_codes]].
  - exists (TerminalColor.value TerminalColor.RED +:+ "[ERROR] "). eexists.
    by rewrite string_app_assoc.
  - exists EmptyString. eexists.
    rewrite string_app_nil_l.
    change (join " " (map py_str [VStr message; VStr "ERROR"; VStr "red"; VNone; VNone]))
      with (message +:+ " " +:+ "ERROR red None None").
    by rewrite !string_app_assoc.
  - exists style_codes. eexists.
    change (join " " (map py_str [VStr message; VStr "ERROR"; VStr "red"; VNone; VNone]))
      with (message +:+ " " +:+ "ERROR red None None").
    by rewrite !string_app_assoc.
Qed.

(** C5. A style request with a name that its table does not have resolves
    to the empty string, never to the codes found before the unknown name,
    and a notice that names an absent name of the request is written. *)
Theorem unknown_name_resolves_to_nothing
    (n : nat) (force_color : bool) (env : environment) (w_init w : world)
    (fg_color bg_color styles : pyval) :
  let self := __init__ force_color env w_init in
  is_name fg_color = true → is_name bg_color = true →
  Exists absent (requested_names self fg_color bg_color styles) →
  ∃ label table name before after,
    (label, table, name) ∈ requested_names self fg_color bg_color styles
    ∧ table !! lower name = None
    ∧ _get_style_codes (S (S n)) self fg_color bg_color styles w
      = (Return EmptyString,
         emit (notice_output self (builtins_print w) (label +:+ name)) w)
    ∧ notice_output self (builtins_print w) (label +:+ name)
      = before +:+ (label +:+ name) +:+ after.
Proof.
  intros self Hfg Hbg Habs.
  destruct (resolve_all_absent _ [] Habs) as (label & table & name & Hin & Hnone & Hres).
  destruct (notice_output_names self (builtins_print w) (label +:+ name))
    as (before & after & Hnotice).
  exists label, table, name, before, after.
  split; [done |]. split; [done |]. split; [| done].
  rewrite get_style_codes_resolve by (done || apply init_colors_red).
  by rewrite Hres.
Qed.

Lemma unknown_name_resolves_to_nothing_witness :
  ∃ label table name before after,
    (label, table, name)
      ∈ requested_names term_color_on (VStr "green") VNone (VList ["bold"; "Chartreuse"])
    ∧ table !! lower name = None
    ∧ _get_style_codes 2 term_color_on (VStr "green") VNone
        (VList ["bold"; "Chartreuse"]) fresh_world
      = (Return EmptyString,
         emit (notice_output term_color_on (builtins_print fresh_world) (label +:+ name))
           fresh_world)
    ∧ notice_output term_color_on (builtins_print fresh_world) (label +:+ name)
      = before +:+ (label +:+ name) +:+ after.
Proof.
  apply (unknown_name_resolves_to_nothing 0 true no_tty fresh_world fresh_world
           (VStr "green") VNone (VList ["bold"; "Chartreuse"])).
  - reflexivity.
  - reflexivity.
  - apply Exists_cons_tl, Exists_cons_tl, Exists_cons_hd. vm_compute. reflexivity.
Defined.

(** ** The print methods *)

(** C1. With colour off, [print_note("Build ok")] writes the wrapper's
    positional arguments joined by spaces, not the formatted message
    ["[NOTE] Build ok"]. *)
Theorem print_note_color_off_prints_arguments :
  print_note 2 term_color_off (VStr "Build ok") VNone VNone fresh_world
  = (Return (),
     World ("Build ok NOTE green None None" +:+ NEWLINE) EmptyString BuiltinPrint)
  ∧ "Build ok NOTE green None None" +:+ NEWLINE ≠ "[NOTE] Build ok" +:+ NEWLINE.
Proof. split; [vm_compute; reflexivity | discriminate]. Qed.

(** C2, as stated, fails: after the newline the context writes one more
    reset sequence, so the newline is not the last byte written. *)
Lemma styled_note_ends_with_reset_not_newline :
  stdout_text
    (_print_styled 2 term_color_on [VStr "Build ok"]
       {[ "prefix" := VStr "NOTE"; "fg_color" := VStr "green" ]} fresh_world).2
  = esc "[32m" +:+ "[NOTE] Build ok" +:+ esc "[0m" +:+ NEWLINE +:+ esc "[0m"
  ∧ stdout_text
      (_print_styled 2 term_color_on [VStr "Build ok"]
         {[ "prefix" := VStr "NOTE"; "fg_color" := VStr "green" ]} fresh_world).2
    ≠ esc "[32m" +:+ "[NOTE] Build ok" +:+ esc "[0m" +:+ NEWLINE.
Proof. split; [vm_compute; reflexivity | vm_compute; discriminate]. Qed.

Lemma bind_arguments_build_ok :
  bind_arguments _print_styled_params [VStr "Build ok"]
    {[ "prefix" := VStr "NOTE"; "fg_color" := VStr "green" ]}
  = Some [VStr "Build ok"; VStr "NOTE"; VStr "green"; VNone; VNone].
Proof. vm_compute. reflexivity. Qed.

Lemma print_styled_bound g self args kwargs message prefix fg_color bg_color styles :
  _color_enabled self = true →
  bind_arguments _print_styled_params args kwargs
  = Some [message; prefix; fg_color; bg_color; styles] →
  Rec._print_styled g self args kwargs
  = Rec._print_styled_func g self message prefix fg_color bg_color styles.
Proof.
  intros Hon Hbind. unfold Rec._print_styled, check_terminal_support.
  rewrite Hon. simpl negb. cbv iota. by rewrite Hbind.
Qed.

Lemma get_style_codes_known n self (c : TerminalColor.t) w :
  _colors self !! lower (TerminalColor.name c) = Some (TerminalColor.value c) →
  _get_style_codes (S n) self (VStr (lower (TerminalColor.name c))) VNone VNone w
  = (Return (TerminalColor.value c), w).
Proof.
  intros Hc.
  change (_get_style_codes (S n)) with (Rec._get_style_codes (_get_style_codes n)).
  rewrite Rec_get_style_codes_resolve by done.
  assert (Hlow : lower (lower (TerminalColor.name c)) = lower (TerminalColor.name c))
    by (by destruct c).
  assert (Ht : truthy (VStr (lower (TerminalColor.name c))) = true) by (by destruct c).
  unfold requested_names. rewrite Ht.
  cbn [truthy app resolve_all py_str]. rewrite Hlow, Hc.
  cbn [app]. by rewrite concat_codes_cons, string_app_nil_r.
Qed.

(** C2, amended. With colour on, the styled print of ["Build ok"] with prefix
    ["NOTE"] and foreground ["green"] (also as [print_note("Build ok")])
    writes the green code, ["[NOTE] Build ok"], the reset sequence, the
    newline, and then the reset sequence of the context's exit. *)
Theorem styled_note_byte_sequence
    (n : nat) (force_color : bool) (env : environment) (w_init w : world) :
  let self := __init__ force_color env w_init in
  _color_enabled self = true →
  _print_styled (S n) self [VStr "Build ok"]
    {[ "prefix" := VStr "NOTE"; "fg_color" := VStr "green" ]} w
  = (Return (),
     emit (esc "[32m" +:+ "[NOTE] Build ok" +:+ esc "[0m" +:+ NEWLINE +:+ esc "[0m") w)
  ∧ print_note (S n) self (VStr "Build ok") VNone VNone w
    = (Return (),
       emit (esc "[32m" +:+ "[NOTE] Build ok" +:+ esc "[0m" +:+ NEWLINE +:+ esc "[0m") w).
Proof.
  intros self Hon.
  assert (Hgreen := get_style_codes_known n self TerminalColor.GREEN w
                      (init_colors force_color env w_init TerminalColor.GREEN)).
  change (lower (TerminalColor.name TerminalColor.GREEN)) with "green" in Hgreen.
  clearbody self.
  split.
  - unfold _print_styled.
    rewrite (print_styled_bound _ _ _ _ _ _ _ _ _ Hon bind_arguments_build_ok).
    by rewrite (print_styled_func_enabled _ _ _ _ _ _ _ _ _ _ Hon Hgreen).
  - unfold print_note, Rec.print_note.
    rewrite print_styled_positional by done.
    by rewrite (print_styled_func_enabled _ _ _ _ _ _ _ _ _ _ Hon Hgreen).
Qed.

Lemma styled_note_byte_sequence_witness :
  _print_styled 1 term_color_on [VStr "Build ok"]
    {[ "prefix" := VStr "NOTE"; "fg_color" := VStr "green" ]} fresh_world
  = (Return (),
     emit (esc "[32m" +:+ "[NOTE] Build ok" +:+ esc "[0m" +:+ NEWLINE +:+ esc "[0m")
       fresh_world)
  ∧ print_note 1 term_color_on (VStr "Build ok") VNone VNone fresh_world
    = (Return (),
       emit (esc "[32m" +:+ "[NOTE] Build ok" +:+ esc "[0m" +:+ NEWLINE +:+ esc "[0m")
         fresh_world).
Proof.
  apply (styled_note_byte_sequence 0 true no_tty fresh_world fresh_world).
  reflexivity.
Defined.

(** C3, as stated, fails: with colour on the call's own message is printed
    after the notice, and with colour off no notice is printed at all. *)
Lemma unknown_name_message_still_printed :
  stdout_text
    (cprint 2 term_color_on (VStr "hello") (VStr "chartreuse") VNone VNone fresh_world).2
  = error_notice "Invalid color: chartreuse"
    +:+ "hello" +:+ esc "[0m" +:+ NEWLINE +:+ esc "[0m"
  ∧ stdout_text
      (cprint 2 term_color_on (VStr "hello") (VStr "chartreuse") VNone VNone fresh_world).2
    ≠ error_notice "Invalid color: chartreuse"
  ∧ stdout_text
      (cprint 2 term_color_off (VStr "hello") (VStr "chartreuse") VNone VNone fresh_world).2
    = "hello None chartreuse None None" +:+ NEWLINE.
Proof.
  split; [vm_compute; reflexivity |].
  split; [vm_compute; discriminate | vm_compute; reflexivity].
Qed.

(** C3, amended. With colour on, a print call with a name that its table
    does not have is not fatal: the notice ["[ERROR] Invalid ...: name"] is
    written in the error colour, and then the call's own formatted message
    is written with no style code, followed by the reset sequence, the
    newline and the reset sequence of the context's exit. *)
Theorem unknown_name_notice_then_plain_message
    (n : nat) (force_color : bool) (env : environment) (w_init w : world)
    (message prefix fg_color bg_color styles : pyval) :
  let self := __init__ force_color env w_init in
  _color_enabled self = true →
  is_name fg_color = true → is_name bg_color = true →
  Exists absent (requested_names self fg_color bg_color styles) →
  ∃ label table name,
    (label, table, name) ∈ requested_names self fg_color bg_color styles
    ∧ table !! lower name = None
    ∧ _print_styled (S (S n)) self [message; prefix; fg_color; bg_color; styles] ∅ w
      = (Return (),
         emit (error_notice (label +:+ name)
               +:+ py_str (_format_message self message prefix)
               +:+ TerminalColor.value TerminalColor.RESET +:+ NEWLINE
               +:+ TerminalColor.value TerminalColor.RESET) w).
Proof.
  intros self Hon Hfg Hbg Habs.
  destruct (resolve_all_absent _ [] Habs) as (label & table & name & Hin & Hnone & Hres).
  exists label, table, name. split; [done |]. split; [done |].
  assert (Hg : _get_style_codes (S (S n)) self fg_color bg_color styles w
               = (Return EmptyString, emit (error_notice (label +:+ name)) w)).
  { rewrite get_style_codes_resolve by (done || apply init_colors_red).
    rewrite Hres. unfold notice_output. by rewrite Hon. }
  unfold _print_styled. rewrite print_styled_positional by done.
  rewrite (print_styled_func_enabled _ _ _ _ _ _ _ _ _ _ Hon Hg).
  by rewrite emit_emit, string_app_nil_l.
Qed.

Lemma unknown_name_notice_then_plain_message_witness :
  ∃ label table name,
    (label, table, name)
      ∈ requested_names term_color_on (VStr "chartreuse") VNone VNone
    ∧ table !! lower name = None
    ∧ _print_styled 2 term_color_on
        [VStr "hello"; VNone; VStr "chartreuse"; VNone; VNone] ∅ fresh_world
      = (Return (),
         emit (error_notice (label +:+ name)
               +:+ py_str (_format_message term_color_on (VStr "hello") VNone)
               +:+ TerminalColor.value TerminalColor.RESET +:+ NEWLINE
               +:+ TerminalColor.value TerminalColor.RESET) fresh_world).
Proof.
  apply (unknown_name_notice_then_plain_message 0 true no_tty fresh_world fresh_world
           (VStr "hello") VNone (VStr "chartreuse") VNone VNone).
  - reflexivity.
  - reflexivity.
  - reflexivity.
  - apply Exists_cons_hd. vm_compute. reflexivity.
Defined.

(** ** Scopes *)

(** A request of the annotated types always resolves: to its codes with
    nothing written, or to the empty string after a notice. *)
Lemma get_style_codes_returns n self fg_color bg_color styles w :
  _colors self !! "red" = Some (TerminalColor.value TerminalColor.RED) →
  is_name fg_color = true → is_name bg_color = true →
  ∃ codes text,
    _get_style_codes (S (S n)) self fg_color bg_color styles w
    = (Return codes, emit text w).
Proof.
  intros Hred Hfg Hbg. rewrite get_style_codes_resolve by done.
  destruct (resolve_all _ _) as [[label name]|codes].
  - by eexists _, _.
  - exists (concat_codes codes), EmptyString. by rewrite emit_nil.
Qed.

(** C6. With colour on, whatever the body does, returning or raising, the
    context leaves [builtins.print] bound to what it was bound to on entry
    and writes the reset sequence last; with colour off the context
    redirects nothing and is the body alone. *)
Theorem scoped_context_restores_print
    (n : nat) (force_color : bool) (env : environment) (w_init w : world)
    (fg_color bg_color styles : pyval) (body : M unit) :
  let self := __init__ force_color env w_init in
  is_name fg_color = true → is_name bg_color = true →
  if _color_enabled self then
    ∃ codes text,
      color_context_enter (S (S n)) self fg_color bg_color styles w
      = (Return (YieldStyled (builtins_print w)), rebind (StyledPrint codes) (emit text w))
      ∧ color_context (S (S n)) self fg_color bg_color styles body w
        = match body (rebind (StyledPrint codes) (emit text w)) with
          | (NoFuel, w2) => (NoFuel, w2)
          | (r, w2) =>
              (r, emit (TerminalColor.value TerminalColor.RESET)
                    (rebind (builtins_print w) w2))
          end
  else
    color_context_enter (S (S n)) self fg_color bg_color styles w = (Return YieldPlain, w)
    ∧ color_context (S (S n)) self fg_color bg_color styles body w = body w.
Proof.
  intros self Hfg Hbg.
  destruct (_color_enabled self) eqn:Hon.
  - destruct (get_style_codes_returns n self fg_color bg_color styles w
                (init_colors_red _ _ _) Hfg Hbg) as (codes & text & Hg).
    exists codes, text. split.
    + unfold color_context_enter.
      by rewrite (color_context_enter_enabled _ _ _ _ _ _ _ _ Hon Hg).
    + unfold color_context.
      by rewrite (color_context_enabled _ _ _ _ _ _ _ _ _ Hon Hg).
  - split.
    + unfold color_context_enter, Rec.color_context_enter. by rewrite Hon.
    + unfold color_context. by rewrite color_context_disabled.
Qed.

Lemma scoped_context_restores_print_witness :
  if _color_enabled term_color_on then
    ∃ codes text,
      color_context_enter 2 term_color_on (VStr "blue") VNone (VStr "bold") fresh_world
      = (Return (YieldStyled (builtins_print fresh_world)),
         rebind (StyledPrint codes) (emit text fresh_world))
      ∧ color_context 2 term_color_on (VStr "blue") VNone (VStr "bold")
          (print [VStr "inside"] ∅ >> raise (OtherError "boom")) fresh_world
        = match (print [VStr "inside"] ∅ >> raise (OtherError "boom"))
                  (rebind (StyledPrint codes) (emit text fresh_world)) with
          | (NoFuel, w2) => (NoFuel, w2)
          | (r, w2) =>
              (r, emit (TerminalColor.value TerminalColor.RESET)
                    (rebind (builtins_print fresh_world) w2))
          end
  else
    color_context_enter 2 term_color_on (VStr "blue") VNone (VStr "bold") fresh_world
    = (Return YieldPlain, fresh_world)
    ∧ color_context 2 term_color_on (VStr "blue") VNone (VStr "bold")
        (print [VStr "inside"] ∅ >> raise (OtherError "boom")) fresh_world
      = (print [VStr "inside"] ∅ >> raise (OtherError "boom")) fresh_world.
Proof.
  apply (scoped_context_restores_print 0 true no_tty fresh_world fresh_world
           (VStr "blue") VNone (VStr "bold")
           (print [VStr "inside"] ∅ >> raise (OtherError "boom"))).
  - reflexivity.
  - reflexivity.
Defined.

Example scoped_context_error_exit :
  color_context 2 term_color_on (VStr "blue") VNone (VStr "bold")
    (print [VStr "inside"] ∅ >> raise (OtherError "boom")) fresh_world
  = (Raise (OtherError "boom"),
     World (esc "[34m" +:+ esc "[1m" +:+ "inside" +:+ esc "[0m" +:+ NEWLINE +:+ esc "[0m")
       EmptyString BuiltinPrint).
Proof. vm_compute. reflexivity. Qed.

(** C8. When a context is entered inside the scope of another, its exit
    binds [builtins.print] to the styled print of the outer context again,
    not to the interpreter's [print]; the exit of the outer context then
    restores what was bound before it. *)
Theorem nested_context_restores_outer
    (n : nat) (force1 force2 : bool) (env1 env2 : environment) (w_init1 w_init2 w : world)
    (fg1 bg1 styles1 fg2 bg2 styles2 : pyval) (between : string) (body : M unit) :
  let outer := __init__ force1 env1 w_init1 in
  let inner := __init__ force2 env2 w_init2 in
  _color_enabled outer = true → _color_enabled inner = true →
  is_name fg1 = true → is_name bg1 = true →
  is_name fg2 = true → is_name bg2 = true →
  ∃ codes1 text1 codes2 text2,
    let w1 := emit between (rebind (StyledPrint codes1) (emit text1 w)) in
    color_context_enter (S (S n)) outer fg1 bg1 styles1 w
    = (Return (YieldStyled (builtins_print w)), rebind (StyledPrint codes1) (emit text1 w))
    ∧ color_context (S (S n)) inner fg2 bg2 styles2 body w1
      = match body (rebind (StyledPrint codes2) (emit text2 w1)) with
        | (NoFuel, w2) => (NoFuel, w2)
        | (r, w2) =>
            (r, emit (TerminalColor.value TerminalColor.RESET)
                  (rebind (StyledPrint codes1) w2))
        end
    ∧ StyledPrint codes1 ≠ BuiltinPrint
    ∧ ∀ w3, color_context_exit (YieldStyled (builtins_print w)) w3
            = (Return (), emit (TerminalColor.value TerminalColor.RESET)
                            (rebind (builtins_print w) w3)).
Proof.
  intros outer inner Hon1 Hon2 Hfg1 Hbg1 Hfg2 Hbg2.
  destruct (get_style_codes_returns n outer fg1 bg1 styles1 w
              (init_colors_red _ _ _) Hfg1 Hbg1) as (codes1 & text1 & Hg1).
  set (w1 := emit between (rebind (StyledPrint codes1) (emit text1 w))).
  destruct (get_style_codes_returns n inner fg2 bg2 styles2 w1
              (init_colors_red _ _ _) Hfg2 Hbg2) as (codes2 & text2 & Hg2).
  exists codes1, text1, codes2, text2. fold w1.
  split; [| split; [| split]].
  - unfold color_context_enter.
    by rewrite (color_context_enter_enabled _ _ _ _ _ _ _ _ Hon1 Hg1).
  - unfold color_context.
    by rewrite (color_context_enabled _ _ _ _ _ _ _ _ _ Hon2 Hg2).
  - discriminate.
  - intros w3. reflexivity.
Qed.

Lemma nested_context_restores_outer_witness :
  ∃ codes1 text1 codes2 text2,
    let w1 := emit "outer line" (rebind (StyledPrint codes1) (emit text1 fresh_world)) in
    color_context_enter 2 term_color_on (VStr "red") VNone VNone fresh_world
    = (Return (YieldStyled (builtins_print fresh_world)),
       rebind (StyledPrint codes1) (emit text1 fresh_world))
    ∧ color_context 2 term_color_on (VStr "blue") VNone VNone (print [VStr "inner"] ∅) w1
      = match print [VStr "inner"] ∅ (rebind (StyledPrint codes2) (emit text2 w1)) with
        | (NoFuel, w2) => (NoFuel, w2)
        | (r, w2) =>
            (r, emit (TerminalColor.value TerminalColor.RESET)
                  (rebind (StyledPrint codes1) w2))
        end
    ∧ StyledPrint codes1 ≠ BuiltinPrint
    ∧ ∀ w3, color_context_exit (YieldStyled (builtins_print fresh_world)) w3
            = (Return (), emit (TerminalColor.value TerminalColor.RESET)
                            (rebind (builtins_print fresh_world) w3)).
Proof.
  apply (nested_context_restores_outer 0 true true no_tty no_tty fresh_world fresh_world
           fresh_world (VStr "red") VNone VNone (VStr "blue") VNone VNone
           "outer line" (print [VStr "inner"] ∅)); reflexivity.
Defined.

Example nested_contexts_run :
  color_context 2 term_color_on (VStr "red") VNone VNone
    (print [VStr "a"] ∅ >>
     color_context 2 term_color_on (VStr "blue") VNone VNone (print [VStr "b"] ∅) >>
     print [VStr "c"] ∅) fresh_world
  = (Return (),
     World (esc "[31m" +:+ "a" +:+ esc "[0m" +:+ NEWLINE
            +:+ esc "[34m" +:+ "b" +:+ esc "[0m" +:+ NEWLINE +:+ esc "[0m"
            +:+ esc "[31m" +:+ "c" +:+ esc "[0m" +:+ NEWLINE +:+ esc "[0m")
       EmptyString BuiltinPrint).
Proof. vm_compute. reflexivity. Qed.

(** ** Colour off *)






(** ** The missing attribute, and the keywords of the styled print *)

Lemma resolve_all_present names codes :
  Forall present names →
  ∃ found, resolve_all names codes = inr (codes ++ found)
           ∧ length found = length names.
Proof.
  intros H. revert codes.
  induction H as [|[[label table] name] rest [code Hcode] _ IH]; intros codes.
  - exists []. by rewrite app_nil_r.
  - simpl in Hcode. simpl. rewrite Hcode.
    destruct (IH (codes ++ [code])) as (found & Hres & Hlen).
    exists (code :: found). split; [| by simpl; rewrite Hlen].
    rewrite Hres. by rewrite <- app_assoc.
Qed.

Lemma write_codes_no_stream self (codes : list string) w :
  _original_stdout self = None → codes ≠ [] →
  match codes with
  | [] => ret ()
  | _ :: _ =>
      let* out := getattr_original_stdout self in
      write out (join EmptyString codes) >>
      let* out := getattr_original_stdout self in
      flush out
  end w
  = (Raise (AttributeError "_original_stdout"), w).
Proof.
  intros Hnone Hne. destruct codes as [|c codes]; [done |].
  unfold bind, getattr_original_stdout. by rewrite Hnone.
Qed.

(** C9. On an instance made by [__init__], [_write_style_end] raises
    [AttributeError] for [_original_stdout], and so do [_write_style_begin]
    for a request that resolves to at least one code and
    [ColoredStdout.flush] with a buffered text. *)
Theorem write_style_methods_raise_attribute_error
    (n : nat) (force_color : bool) (env : environment) (w_init w : world)
    (fg_color bg_color styles : pyval) (text : string) :
  let self := __init__ force_color env w_init in
  is_name fg_color = true → is_name bg_color = true →
  Forall present (requested_names self fg_color bg_color styles) →
  requested_names self fg_color bg_color styles ≠ [] →
  _write_style_end self w = (Raise (AttributeError "_original_stdout"), w)
  ∧ _write_style_begin (S n) self fg_color bg_color styles w
    = (Raise (AttributeError "_original_stdout"), w)
  ∧ ColoredStdout_flush (ColoredStdout_write (ColoredStdout_init self) text) w
    = (Raise (AttributeError "_original_stdout"), w).
Proof.
  intros self Hfg Hbg Hpresent Hne.
  split; [reflexivity |]. split; [| reflexivity].
  destruct (resolve_all_present _ [] Hpresent) as (found & Hres & Hlen).
  unfold _write_style_begin, Rec._write_style_begin.
  rewrite lookups_resolve by done.
  rewrite Hres.
  apply write_codes_no_stream; [reflexivity |].
  intros Hnil. apply Hne.
  simpl in Hnil. subst found. simpl in Hlen.
  by destruct (requested_names self fg_color bg_color styles).
Qed.

Lemma write_style_methods_raise_attribute_error_witness :
  _write_style_end term_color_on fresh_world
  = (Raise (AttributeError "_original_stdout"), fresh_world)
  ∧ _write_style_begin 1 term_color_on (VStr "red") VNone (VStr "bold") fresh_world
    = (Raise (AttributeError "_original_stdout"), fresh_world)
  ∧ ColoredStdout_flush (ColoredStdout_write (ColoredStdout_init term_color_on) "x")
      fresh_world
    = (Raise (AttributeError "_original_stdout"), fresh_world).
Proof.
  apply (write_style_methods_raise_attribute_error 0 true no_tty fresh_world fresh_world
           (VStr "red") VNone (VStr "bold") "x").
  - reflexivity.
  - reflexivity.
  - repeat constructor; vm_compute; eexists; reflexivity.
  - discriminate.
Defined.

Lemma styled_print_output style_codes args kwargs sep end_ w :
  keyword_text " " (kwargs !! "sep") = Some sep →
  keyword_text NEWLINE (kwargs !! "end") = Some end_ →
  styled_print style_codes args kwargs w
  = (Return (),
     emit (style_codes +:+ join sep (map py_str args)
           +:+ TerminalColor.value TerminalColor.RESET +:+ end_) w).
Proof.
  intros Hsep Hend. unfold styled_print.
  assert (Hs : default (KData (VStr " ")) (kwargs !! "sep") = KData (VStr sep)).
  { destruct (kwargs !! "sep") as [[[| s | l] | f | b]|]; simpl in *; congruence. }
  assert (He : default (KData (VStr NEWLINE)) (kwargs !! "end") = KData (VStr end_)).
  { destruct (kwargs !! "end") as [[[| s | l] | f | b]|]; simpl in *; congruence. }
  rewrite Hs, He. unfold emit, str_join, stdout_write_obj, bind, write, flush, ret; simpl.
  by rewrite !string_app_assoc.
Qed.

(** C10. Inside a colour-enabled context [print] is the styled print: it
    joins its arguments with [sep], writes the codes, the message, the reset
    sequence and [end] to [sys.stdout], with a space and a newline as
    defaults, and any other keyword, [file] among them, changes nothing. *)
Theorem styled_print_ignores_destination
    (self : Terminal) (style_codes : string) (args : list pyval)
    (kwargs : gmap string kwval) (sep end_ key : string) (value : kwval) (w : world) :
  keyword_text " " (kwargs !! "sep") = Some sep →
  keyword_text NEWLINE (kwargs !! "end") = Some end_ →
  key ≠ "sep" → key ≠ "end" →
  let inside := rebind (_create_styled_print self style_codes) w in
  let written :=
    style_codes +:+ join sep (map py_str args)
    +:+ TerminalColor.value TerminalColor.RESET +:+ end_ in
  print args kwargs inside = (Return (), emit written inside)
  ∧ print args (<[key := value]> kwargs) inside = (Return (), emit written inside)
  ∧ print args (<["file" := KFile sys_stderr]> kwargs) inside
    = (Return (), emit written inside)
  ∧ stderr_text (emit written inside) = stderr_text w
  ∧ print args ∅ inside
    = (Return (),
       emit (style_codes +:+ join " " (map py_str args)
             +:+ TerminalColor.value TerminalColor.RESET +:+ NEWLINE) inside).
Proof.
  intros Hsep Hend Hks Hke inside written.
  assert (Hother : ∀ k v, k ≠ "sep" → k ≠ "end" →
            print args (<[k := v]> kwargs) inside = (Return (), emit written inside)).
  { intros k v Hk1 Hk2. unfold print. simpl.
    apply styled_print_output; by rewrite lookup_insert_ne. }
  split; [| split; [| split; [| split]]].
  - unfold print. simpl. by apply styled_print_output.
  - by apply Hother.
  - by apply Hother.
  - reflexivity.
  - unfold print. simpl. apply styled_print_plain.
Qed.

Lemma styled_print_ignores_destination_witness :
  let inside := rebind (_create_styled_print term_color_on (esc "[31m")) fresh_world in
  let written :=
    esc "[31m" +:+ join "-" (map py_str [VStr "a"; VStr "b"])
    +:+ TerminalColor.value TerminalColor.RESET +:+ NEWLINE in
  print [VStr "a"; VStr "b"] {[ "sep" := KData (VStr "-") ]} inside
  = (Return (), emit written inside)
  ∧ print [VStr "a"; VStr "b"] (<["flush" := KBool true]> {[ "sep" := KData (VStr "-") ]})
      inside
    = (Return (), emit written inside)
  ∧ print [VStr "a"; VStr "b"]
      (<["file" := KFile sys_stderr]> {[ "sep" := KData (VStr "-") ]}) inside
    = (Return (), emit written inside)
  ∧ stderr_text (emit written inside) = stderr_text fresh_world
  ∧ print [VStr "a"; VStr "b"] ∅ inside
    = (Return (),
       emit (esc "[31m" +:+ join " " (map py_str [VStr "a"; VStr "b"])
             +:+ TerminalColor.value TerminalColor.RESET +:+ NEWLINE) inside).
Proof.
  apply (styled_print_ignores_destination term_color_on (esc "[31m")
           [VStr "a"; VStr "b"] {[ "sep" := KData (VStr "-") ]} "-" NEWLINE
           "flush" (KBool true) fresh_world).
  - reflexivity.
  - reflexivity.
  - discriminate.
  - discriminate.
Defined.

Example builtin_print_honours_file :
  builtin_print [VStr "a"] {[ "file" := KFile sys_stderr ]} fresh_world
  = (Return (), World EmptyString ("a" +:+ NEWLINE) BuiltinPrint)
  ∧ styled_print (esc "[31m") [VStr "a"] {[ "file" := KFile sys_stderr ]} fresh_world
    = (Return (),
       World (esc "[31m" +:+ "a" +:+ esc "[0m" +:+ NEWLINE) EmptyString BuiltinPrint).
Proof. split; vm_compute; reflexivity. Qed.

(** * Further properties *)

(** ** The tables of an instance *)

(** X1. The three tables of an instance hold exactly the members of their
    enumerations: a key has a code if and only if it is the lower-case name
    of a member, and the code is that member's value. *)
Theorem tables_hold_exactly_the_members
    (force_color : bool) (env : environment) (w_init : world) (key code : string) :
  let self := __init__ force_color env w_init in
  (_colors self !! key = Some code
   ↔ ∃ c, key = lower (TerminalColor.name c) ∧ code = TerminalColor.value c)
  ∧ (_backgrounds self !! key = Some code
     ↔ ∃ b, key = lower (BackgroundColor.name b) ∧ code = BackgroundColor.value b)
  ∧ (_styles self !! key = Some code
     ↔ ∃ x, key = lower (Style.name x) ∧ code = Style.value x).
Proof.
  intros self. split; [| split]; split.
  - intros H. apply elem_of_list_to_map_2 in H.
    apply list_elem_of_fmap in H as (c & Heq & _). exists c. by inversion Heq.
  - intros (c & -> & ->). apply init_colors.
  - intros H. apply elem_of_list_to_map_2 in H.
    apply list_elem_of_fmap in H as (b & Heq & _). exists b. by inversion Heq.
  - intros (b & -> & ->). apply init_backgrounds.
  - intros H. apply elem_of_list_to_map_2 in H.
    apply list_elem_of_fmap in H as (x & Heq & _). exists x. by inversion Heq.
  - intros (x & -> & ->). apply init_styles.
Qed.

(** X2. Colour is on exactly when it is forced, or when [sys.stdout] has an
    [isatty] that answers true and [NO_COLOR] is unset or empty. *)
Theorem color_enabled_iff (force_color : bool) (env : environment) (w_init : world) :
  _color_enabled (__init__ force_color env w_init) = true
  ↔ force_color = true
    ∨ (stdout_has_isatty env = true ∧ stdout_isatty env = true
       ∧ (NO_COLOR env = None ∨ NO_COLOR env = Some EmptyString)).
Proof.
  unfold __init__, environ_get_NO_COLOR; simpl.
  destruct force_color, (stdout_has_isatty env), (stdout_isatty env),
    (NO_COLOR env) as [[|c s]|]; simpl; split; intros H; try done;
    try (by left); try (by right; repeat split; (by left) || (by right));
    destruct H as [H|(H1 & H2 & [H3|H3])]; done.
Qed.

(** ** Resolution *)

Lemma resolve_all_found names found codes :
  Forall2 found_in names found →
  resolve_all names codes = inr (codes ++ found).
Proof.
  intros H. revert codes.
  induction H as [|[[label table] name] code names found Hcode _ IH]; intros codes.
  - by rewrite app_nil_r.
  - unfold found_in in Hcode. simpl in Hcode. simpl. rewrite Hcode, IH.
    by rewrite <- app_assoc.
Qed.

Lemma present_found names :
  Forall present names → ∃ found, Forall2 found_in names found.
Proof.
  induction 1 as [|[[label table] name] names [code Hcode] _ (found & IH)].
  - by exists [].
  - exists (code :: found). by constructor.
Qed.

(** X3. A request whose requested names are all in their tables resolves
    to the concatenation of their codes, in lookup order, and leaves the
    state as it was: nothing is written. *)
Theorem known_names_resolve_silently
    (n : nat) (self : Terminal) (fg_color bg_color styles : pyval) (w : world) :
  is_name fg_color = true → is_name bg_color = true →
  Forall present (requested_names self fg_color bg_color styles) →
  ∃ found,
    Forall2 found_in (requested_names self fg_color bg_color styles) found
    ∧ _get_style_codes (S n) self fg_color bg_color styles w
      = (Return (concat_codes found), w).
Proof.
  intros Hfg Hbg Hall.
  destruct (present_found _ Hall) as (found & Hfound).
  exists found. split; [done |].
  change (_get_style_codes (S n)) with (Rec._get_style_codes (_get_style_codes n)).
  rewrite Rec_get_style_codes_resolve by done.
  by rewrite (resolve_all_found _ _ [] Hfound).
Qed.

Lemma known_names_resolve_silently_witness :
  ∃ found,
    Forall2 found_in
      (requested_names term_color_off (VStr "Blue") VNone (VList ["bold"; "Dim"])) found
    ∧ _get_style_codes 1 term_color_off (VStr "Blue") VNone (VList ["bold"; "Dim"])
        fresh_world
      = (Return (concat_codes found), fresh_world).
Proof.
  apply (known_names_resolve_silently 0 term_color_off (VStr "Blue") VNone
           (VList ["bold"; "Dim"]) fresh_world).
  - reflexivity.
  - reflexivity.
  - repeat constructor; vm_compute; eexists; reflexivity.
Defined.

Lemma resolve_all_first_absent pre label table name post codes :
  Forall present pre → table !! lower name = None →
  resolve_all (pre ++ (label, table, name) :: post) codes = inl (label, name).
Proof.
  intros Hpre Hnone.
  destruct (present_found _ Hpre) as (found & Hfound).
  rewrite resolve_all_app, (resolve_all_found _ _ codes Hfound).
  simpl. by rewrite Hnone.
Qed.

(** X4. When the names looked up before an unknown name are all known, the
    result is the empty string and the one notice written names that first
    unknown name, as typed, whatever comes after it. *)
Theorem notice_names_first_unknown
    (n : nat) (force_color : bool) (env : environment) (w_init w : world)
    (fg_color bg_color styles : pyval)
    (pre post : list (string * gmap string string * string))
    (label name : string) (table : gmap string string) :
  let self := __init__ force_color env w_init in
  is_name fg_color = true → is_name bg_color = true →
  requested_names self fg_color bg_color styles = pre ++ (label, table, name) :: post →
  Forall present pre →
  table !! lower name = None →
  _get_style_codes (S (S n)) self fg_color bg_color styles w
  = (Return EmptyString,
     emit (notice_output self (builtins_print w) (label +:+ name)) w).
Proof.
  intros self Hfg Hbg Hsplit Hpre Hnone.
  rewrite get_style_codes_resolve by (done || apply init_colors_red).
  by rewrite Hsplit, (resolve_all_first_absent _ _ _ _ _ _ Hpre Hnone).
Qed.

Lemma notice_names_first_unknown_witness :
  _get_style_codes 2 term_color_on (VStr "red") (VStr "Mauve") (VStr "sparkle") fresh_world
  = (Return EmptyString,
     emit (notice_output term_color_on (builtins_print fresh_world)
             ("Invalid background color: " +:+ "Mauve")) fresh_world).
Proof.
  apply (notice_names_first_unknown 0 true no_tty fresh_world fresh_world
           (VStr "red") (VStr "Mauve") (VStr "sparkle")
           [("Invalid color: ", _colors term_color_on, "red")]
           [("Invalid style: ", _styles term_color_on, "sparkle")]
           "Invalid background color: " "Mauve" (_backgrounds term_color_on)).
  - reflexivity.
  - reflexivity.
  - reflexivity.
  - repeat constructor. vm_compute. eexists; reflexivity.
  - vm_compute. reflexivity.
Defined.

(** X5. For arguments of the annotated types, resolution on a constructed
    instance always returns a value, the same for every budget of two or
    more; it leaves [builtins.print] and [sys.stderr] as they were and only
    appends to [sys.stdout]. *)
Theorem resolution_returns_and_keeps_state
    (force_color : bool) (env : environment) (w_init w : world)
    (fg_color bg_color styles : pyval) :
  let self := __init__ force_color env w_init in
  is_name fg_color = true → is_name bg_color = true →
  ∃ codes w' text,
    (∀ n, _get_style_codes (S (S n)) self fg_color bg_color styles w = (Return codes, w'))
    ∧ builtins_print w' = builtins_print w
    ∧ stderr_text w' = stderr_text w
    ∧ stdout_text w' = stdout_text w +:+ text.
Proof.
  intros self Hfg Hbg.
  destruct (get_style_codes_returns 0 self fg_color bg_color styles w
              (init_colors_red _ _ _) Hfg Hbg) as (codes & text & Hg).
  exists codes, (emit text w), text. split; [| done].
  intros n. rewrite <- Hg. apply get_style_codes_fuel; (done || apply init_colors_red).
Qed.

Lemma resolution_returns_and_keeps_state_witness :
  ∃ codes w' text,
    (∀ n, _get_style_codes (S (S n)) term_color_off (VStr "nope") VNone VNone fresh_world
          = (Return codes, w'))
    ∧ builtins_print w' = builtins_print fresh_world
    ∧ stderr_text w' = stderr_text fresh_world
    ∧ stdout_text w' = stdout_text fresh_world +:+ text.
Proof.
  apply (resolution_returns_and_keeps_state false no_tty fresh_world fresh_world
           (VStr "nope") VNone VNone); reflexivity.
Defined.

(** X6. A non-empty list given as the foreground colour is not handled:
    [.lower()] raises [AttributeError], from the resolver, from the scoped
    context (whose body does not run) and from [cprint], with nothing
    written and [builtins.print] not rebound. *)
Theorem list_as_color_raises
    (n : nat) (self : Terminal) (message bg_color styles : pyval)
    (s : string) (l : list string) (body : M unit) (w : world) :
  _color_enabled self = true →
  _get_style_codes (S n) self (VList (s :: l)) bg_color styles w
  = (Raise (AttributeError "lower"), w)
  ∧ color_context (S n) self (VList (s :: l)) bg_color styles body w
    = (Raise (AttributeError "lower"), w)
  ∧ cprint (S n) self message (VList (s :: l)) bg_color styles w
    = (Raise (AttributeError "lower"), w).
Proof.
  intros Hon.
  assert (Hg : _get_style_codes (S n) self (VList (s :: l)) bg_color styles w
               = (Raise (AttributeError "lower"), w)) by reflexivity.
  assert (Hc : ∀ body', color_context (S n) self (VList (s :: l)) bg_color styles body' w
                        = (Raise (AttributeError "lower"), w)).
  { intros body'. unfold color_context, Rec.color_context, with_, Rec.color_context_enter.
    rewrite Hon. simpl negb. cbv iota. unfold bind at 1. unfold bind at 1.
    by rewrite Hg. }
  split; [done |]. split; [apply Hc |].
  unfold cprint, Rec.cprint. rewrite print_styled_positional by done.
  unfold Rec._print_styled_func. apply Hc.
Qed.

Lemma list_as_color_raises_witness :
  _get_style_codes 1 term_color_on (VList ["red"]) VNone VNone fresh_world
  = (Raise (AttributeError "lower"), fresh_world)
  ∧ color_context 1 term_color_on (VList ["red"]) VNone VNone (print [VStr "x"] ∅)
      fresh_world
    = (Raise (AttributeError "lower"), fresh_world)
  ∧ cprint 1 term_color_on (VStr "x") (VList ["red"]) VNone VNone fresh_world
    = (Raise (AttributeError "lower"), fresh_world).
Proof.
  apply (list_as_color_raises 0 term_color_on (VStr "x") VNone VNone "red" []
           (print [VStr "x"] ∅) fresh_world).
  reflexivity.
Defined.

(** ** Styled output *)

(** X7. With colour on and every requested name known, a styled print
    writes the codes, the formatted message, the reset sequence, a newline
    and the reset sequence of the context's exit, and changes nothing
    else. *)
Theorem styled_print_output_of_known_names
    (n : nat) (self : Terminal) (message prefix fg_color bg_color styles : pyval)
    (found : list string) (w : world) :
  _color_enabled self = true →
  is_name fg_color = true → is_name bg_color = true →
  Forall2 found_in (requested_names self fg_color bg_color styles) found →
  _print_styled (S n) self [message; prefix; fg_color; bg_color; styles] ∅ w
  = (Return (),
     emit (concat_codes found
           +:+ py_str (_format_message self message prefix)
           +:+ TerminalColor.value TerminalColor.RESET +:+ NEWLINE
           +:+ TerminalColor.value TerminalColor.RESET) w).
Proof.
  intros Hon Hfg Hbg Hfound.
  assert (Hg : _get_style_codes (S n) self fg_color bg_color styles w
               = (Return (concat_codes found), w)).
  { change (_get_style_codes (S n)) with (Rec._get_style_codes (_get_style_codes n)).
    rewrite Rec_get_style_codes_resolve by done.
    by rewrite (resolve_all_found _ _ [] Hfound). }
  unfold _print_styled. rewrite print_styled_positional by done.
  by rewrite (print_styled_func_enabled _ _ _ _ _ _ _ _ _ _ Hon Hg).
Qed.

Lemma styled_print_output_of_known_names_witness :
  _print_styled 1 term_color_on
    [VStr "disk"; VStr "WARN"; VStr "Yellow"; VStr "blue"; VList ["bold"]] ∅ fresh_world
  = (Return (),
     emit (concat_codes [esc "[33m"; esc "[44m"; esc "[1m"]
           +:+ py_str (_format_message term_color_on (VStr "disk") (VStr "WARN"))
           +:+ TerminalColor.value TerminalColor.RESET +:+ NEWLINE
           +:+ TerminalColor.value TerminalColor.RESET) fresh_world).
Proof.
  apply (styled_print_output_of_known_names 0 term_color_on (VStr "disk") (VStr "WARN")
           (VStr "Yellow") (VStr "blue") (VList ["bold"])
           [esc "[33m"; esc "[44m"; esc "[1m"] fresh_world).
  - reflexivity.
  - reflexivity.
  - reflexivity.
  - repeat constructor; vm_compute; reflexivity.
Defined.

(** X8. With colour on, the four message methods write their label in
    brackets before the message, in green, yellow, red and cyan, and
    [cprint] with the default colour writes the message alone after the
    default-colour code. *)
Theorem wrappers_prefix_and_color
    (n : nat) (force_color : bool) (env : environment) (w_init w : world)
    (message : pyval) :
  let self := __init__ force_color env w_init in
  let line (code label : string) :=
    code +:+ label +:+ py_str message
    +:+ TerminalColor.value TerminalColor.RESET +:+ NEWLINE
    +:+ TerminalColor.value TerminalColor.RESET in
  _color_enabled self = true →
  print_note (S n) self message VNone VNone w
  = (Return (), emit (line (esc "[32m") "[NOTE] ") w)
  ∧ print_warning (S n) self message VNone VNone w
    = (Return (), emit (line (esc "[33m") "[WARNING] ") w)
  ∧ print_error (S n) self message VNone VNone w
    = (Return (), emit (line (esc "[31m") "[ERROR] ") w)
  ∧ print_info (S n) self message VNone VNone w
    = (Return (), emit (line (esc "[36m") "[INFO] ") w)
  ∧ cprint (S n) self message (VStr "default") VNone VNone w
    = (Return (), emit (line (esc "[39m") EmptyString) w).
Proof.
  intros self line Hon.
  assert (Hk : ∀ c, _get_style_codes (S n) self (VStr (lower (TerminalColor.name c)))
                      VNone VNone w = (Return (TerminalColor.value c), w))
    by (intros c; apply get_style_codes_known, init_colors).
  clearbody self.
  assert (Hw : ∀ prefix c,
            _print_styled (S n) self
              [message; prefix; VStr (lower (TerminalColor.name c)); VNone; VNone] ∅ w
            = (Return (),
               emit (TerminalColor.value c +:+ py_str (_format_message self message prefix)
                     +:+ TerminalColor.value TerminalColor.RESET +:+ NEWLINE
                     +:+ TerminalColor.value TerminalColor.RESET) w)).
  { intros prefix c. unfold _print_styled. rewrite print_styled_positional by done.
    by rewrite (print_styled_func_enabled _ _ _ _ _ _ _ _ _ _ Hon (Hk c)). }
  split; [apply (Hw (VStr "NOTE") TerminalColor.GREEN) |].
  split; [apply (Hw (VStr "WARNING") TerminalColor.YELLOW) |].
  split; [apply (Hw (VStr "ERROR") TerminalColor.RED) |].
  split; [apply (Hw (VStr "INFO") TerminalColor.CYAN) |].
  apply (Hw VNone TerminalColor.DEFAULT).
Qed.

Lemma wrappers_prefix_and_color_witness :
  print_info 1 term_color_on (VList ["a"; "b"]) VNone VNone fresh_world
  = (Return (),
     emit (esc "[36m" +:+ "[INFO] " +:+ py_str (VList ["a"; "b"])
           +:+ TerminalColor.value TerminalColor.RESET +:+ NEWLINE
           +:+ TerminalColor.value TerminalColor.RESET) fresh_world).
Proof.
  pose proof (wrappers_prefix_and_color 0 true no_tty fresh_world fresh_world
                (VList ["a"; "b"])) as H.
  destruct H as (_ & _ & _ & H & _); [reflexivity | exact H].
Defined.

(** X9. An instance with colour off prints through whatever is bound to
    [builtins.print]: inside the scope of a colour-on context its output is
    wrapped in that scope's codes and the reset sequence. *)
Theorem color_off_prints_through_active_scope
    (fuel : nat) (self : Terminal) (args : list pyval) (kwargs : gmap string pyval)
    (style_codes : string) (w : world) :
  _color_enabled self = false →
  builtins_print w = StyledPrint style_codes →
  _print_styled fuel self args kwargs w
  = (Return (),
     emit (style_codes +:+ join " " (map py_str args)
           +:+ TerminalColor.value TerminalColor.RESET +:+ NEWLINE) w).
Proof.
  intros Hoff Hp. unfold _print_styled.
  rewrite print_styled_off by done.
  by rewrite print_plain, Hp.
Qed.

Lemma color_off_prints_through_active_scope_witness :
  _print_styled 0 term_color_off [VStr "plain?"] ∅
    (rebind (StyledPrint (esc "[31m")) fresh_world)
  = (Return (),
     emit (esc "[31m" +:+ join " " (map py_str [VStr "plain?"])
           +:+ TerminalColor.value TerminalColor.RESET +:+ NEWLINE)
       (rebind (StyledPrint (esc "[31m")) fresh_world)).
Proof.
  apply (color_off_prints_through_active_scope 0 term_color_off [VStr "plain?"] ∅
           (esc "[31m") (rebind (StyledPrint (esc "[31m")) fresh_world)); reflexivity.
Defined.

Lemma bind_arguments_too_many params args kwargs :
  length params < length args → bind_arguments params args kwargs = None.
Proof.
  revert args kwargs. induction params as [|[name dflt] params IH]; intros args kwargs Hlen.
  - destruct args; [simpl in Hlen; lia | reflexivity].
  - destruct args as [|a args]; [simpl in Hlen; lia |].
    simpl. destruct (kwargs !! name); [reflexivity |].
    rewrite IH by (simpl in Hlen; lia). reflexivity.
Qed.

(** X10. More than five positional arguments raise [TypeError] with nothing
    written when colour is on; with colour off the arguments are never bound
    and are all printed. *)
Theorem surplus_arguments_raise_only_with_color
    (fuel : nat) (self : Terminal) (args : list pyval) (kwargs : gmap string pyval)
    (w : world) :
  5 < length args →
  _print_styled fuel self args kwargs w
  = if _color_enabled self
    then (Raise (TypeError "_print_styled() arguments"), w)
    else print args ∅ w.
Proof.
  intros Hlen. unfold _print_styled, Rec._print_styled, check_terminal_support.
  destruct (_color_enabled self); simpl negb; cbv iota; [| reflexivity].
  by rewrite bind_arguments_too_many.
Qed.

Lemma surplus_arguments_raise_only_with_color_witness :
  _print_styled 0 term_color_on
    [VStr "m"; VNone; VStr "red"; VNone; VNone; VStr "extra"] ∅ fresh_world
  = if _color_enabled term_color_on
    then (Raise (TypeError "_print_styled() arguments"), fresh_world)
    else print [VStr "m"; VNone; VStr "red"; VNone; VNone; VStr "extra"] ∅ fresh_world.
Proof.
  apply (surplus_arguments_raise_only_with_color 0 term_color_on
           [VStr "m"; VNone; VStr "red"; VNone; VNone; VStr "extra"] ∅ fresh_world).
  simpl. lia.
Defined.



(** X12. An [end] keyword that is not a [str] makes the styled print raise
    [TypeError] only after the codes, the message and the reset sequence
    were written. *)
Theorem styled_print_non_string_end_fails_late
    (style_codes : string) (args : list pyval) (kwargs : gmap string kwval)
    (sep : string) (end_ : kwval) (w : world) :
  keyword_text " " (kwargs !! "sep") = Some sep →
  kwargs !! "end" = Some end_ →
  keyword_text NEWLINE (Some end_) = None →
  styled_print style_codes args kwargs w
  = (Raise (TypeError "write() argument must be str"),
     emit (style_codes +:+ join sep (map py_str args)
           +:+ TerminalColor.value TerminalColor.RESET) w).
Proof.
  intros Hsep Hend Hbad. unfold styled_print.
  assert (Hs : default (KData (VStr " ")) (kwargs !! "sep") = KData (VStr sep)).
  { destruct (kwargs !! "sep") as [[[| s | l] | f | b]|]; simpl in *; congruence. }
  rewrite Hs, Hend. simpl default.
  unfold emit, str_join, bind, write, ret; simpl.
  destruct end_ as [[| s | l] | f | b]; try done;
    unfold stdout_write_obj, raise; simpl; by rewrite !string_app_assoc.
Qed.

Lemma styled_print_non_string_end_fails_late_witness :
  styled_print (esc "[31m") [VStr "a"] {[ "end" := KData VNone ]} fresh_world
  = (Raise (TypeError "write() argument must be str"),
     emit (esc "[31m" +:+ join " " (map py_str [VStr "a"])
           +:+ TerminalColor.value TerminalColor.RESET) fresh_world).
Proof.
  apply (styled_print_non_string_end_fails_late (esc "[31m") [VStr "a"]
           {[ "end" := KData VNone ]} " " (KData VNone) fresh_world); reflexivity.
Defined.

(** ** The methods that write to [_original_stdout] *)

Lemma emit_to_nil (f : file) (w : world) : emit_to f EmptyString w = w.
Proof. destruct w, f; unfold emit_to, emit; simpl; by rewrite string_app_nil_r. Qed.

Lemma write_emit_to (f : file) (text : string) (w : world) :
  write f text w = (Return (), emit_to f text w).
Proof. by destruct f. Qed.

Lemma write_codes_stream self (f : file) (codes : list string) w :
  _original_stdout self = Some f →
  match codes with
  | [] => ret ()
  | _ :: _ =>
      let* out := getattr_original_stdout self in
      write out (join EmptyString codes) >>
      let* out := getattr_original_stdout self in
      flush out
  end w
  = (Return (), emit_to f (concat_codes codes) w).
Proof.
  intros Hf. destruct codes as [|c codes].
  - by rewrite emit_to_nil.
  - unfold bind, getattr_original_stdout. rewrite Hf. unfold ret.
    rewrite write_emit_to. rewrite ?Hf. unfold flush, ret.
    by rewrite join_empty_concat.
Qed.

(** X13. On an instance whose [_original_stdout] is set, [_write_style_begin]
    writes to that stream exactly the codes [_get_style_codes] returns for
    the same request (nothing for an unknown name, after the same notice),
    and [_write_style_end] then appends the reset sequence. *)
Theorem write_style_begin_writes_resolved_codes
    (n : nat) (self : Terminal) (f : file) (fg_color bg_color styles : pyval) (w : world) :
  _original_stdout self = Some f →
  _colors self !! "red" = Some (TerminalColor.value TerminalColor.RED) →
  is_name fg_color = true → is_name bg_color = true →
  ∃ codes w',
    _get_style_codes (S (S n)) self fg_color bg_color styles w = (Return codes, w')
    ∧ _write_style_begin (S (S n)) self fg_color bg_color styles w
      = (Return (), emit_to f codes w')
    ∧ _write_style_end self (emit_to f codes w')
      = (Return (),
         emit_to f (codes +:+ TerminalColor.value TerminalColor.RESET) w').
Proof.
  intros Hf Hred Hfg Hbg.
  rewrite get_style_codes_resolve by done.
  unfold _write_style_begin, Rec._write_style_begin.
  rewrite lookups_resolve by done.
  assert (Hend : ∀ codes w', _write_style_end self (emit_to f codes w')
            = (Return (),
               emit_to f (codes +:+ TerminalColor.value TerminalColor.RESET) w')).
  { intros codes w'. unfold _write_style_end, bind, getattr_original_stdout.
    rewrite Hf. unfold ret. rewrite write_emit_to. rewrite ?Hf. unfold flush, ret.
    destruct f, w'; unfold emit_to, emit; simpl; by rewrite string_app_assoc. }
  destruct (resolve_all _ _) as [[label name]|codes].
  - eexists _, _. split; [reflexivity |]. split; [| apply Hend].
    unfold report, bind. rewrite print_error_output by done.
    unfold ret. by rewrite emit_to_nil.
  - eexists _, _. split; [reflexivity |]. split; [| apply Hend].
    by apply write_codes_stream.
Qed.

Lemma write_style_begin_writes_resolved_codes_witness :
  ∃ codes w',
    _get_style_codes 2 (assign_original_stdout term_color_on sys_stderr)
      (VStr "red") VNone (VStr "bold") fresh_world = (Return codes, w')
    ∧ _write_style_begin 2 (assign_original_stdout term_color_on sys_stderr)
        (VStr "red") VNone (VStr "bold") fresh_world
      = (Return (), emit_to sys_stderr codes w')
    ∧ _write_style_end (assign_original_stdout term_color_on sys_stderr)
        (emit_to sys_stderr codes w')
      = (Return (),
         emit_to sys_stderr (codes +:+ TerminalColor.value TerminalColor.RESET) w').
Proof.
  apply (write_style_begin_writes_resolved_codes 0
           (assign_original_stdout term_color_on sys_stderr) sys_stderr
           (VStr "red") VNone (VStr "bold") fresh_world).
  - reflexivity.
  - vm_compute. reflexivity.
  - reflexivity.
  - reflexivity.
Defined.

(** X14. With an unknown name, [_write_style_begin] writes the notice and
    returns normally: it does not reach the read of [_original_stdout]. *)
Theorem write_style_begin_reports_unknown_name
    (n : nat) (force_color : bool) (env : environment) (w_init w : world)
    (fg_color bg_color styles : pyval) :
  let self := __init__ force_color env w_init in
  is_name fg_color = true → is_name bg_color = true →
  Exists absent (requested_names self fg_color bg_color styles) →
  ∃ label table name,
    (label, table, name) ∈ requested_names self fg_color bg_color styles
    ∧ table !! lower name = None
    ∧ _write_style_begin (S (S n)) self fg_color bg_color styles w
      = (Return (), emit (notice_output self (builtins_print w) (label +:+ name)) w).
Proof.
  intros self Hfg Hbg Habs.
  destruct (resolve_all_absent _ [] Habs) as (label & table & name & Hin & Hnone & Hres).
  exists label, table, name. split; [done |]. split; [done |].
  unfold _write_style_begin, Rec._write_style_begin.
  rewrite lookups_resolve by done. rewrite Hres.
  unfold report, bind. by rewrite print_error_output by apply init_colors_red.
Qed.

Lemma write_style_begin_reports_unknown_name_witness :
  ∃ label table name,
    (label, table, name) ∈ requested_names term_color_on (VStr "red") (VStr "teal") VNone
    ∧ table !! lower name = None
    ∧ _write_style_begin 2 term_color_on (VStr "red") (VStr "teal") VNone fresh_world
      = (Return (),
         emit (notice_output term_color_on (builtins_print fresh_world) (label +:+ name))
           fresh_world).
Proof.
  apply (write_style_begin_reports_unknown_name 0 true no_tty fresh_world fresh_world
           (VStr "red") (VStr "teal") VNone).
  - reflexivity.
  - reflexivity.
  - apply Exists_cons_tl, Exists_cons_hd. vm_compute. reflexivity.
Defined.

(** ** ColoredStdout *)

Lemma buffer_after_writes (self : ColoredStdout) (texts : list string) :
  buffer (foldl ColoredStdout_write self texts) = buffer self ++ texts
  ∧ terminal (foldl ColoredStdout_write self texts) = terminal self.
Proof.
  revert self. induction texts as [|text texts IH]; intros self; simpl.
  - by rewrite app_nil_r.
  - destruct (IH (ColoredStdout_write self text)) as [Hb Ht].
    rewrite Hb, Ht. simpl. by rewrite <- app_assoc.
Qed.

(** X15. With [_original_stdout] set, a flush after any writes sends the
    buffered texts, concatenated in the order written, to that stream and
    empties the buffer; a second flush writes nothing. *)
Theorem flush_writes_buffer_in_order
    (t : Terminal) (f : file) (texts : list string) (w : world) :
  _original_stdout t = Some f →
  ColoredStdout_flush (foldl ColoredStdout_write (ColoredStdout_init t) texts) w
  = (Return (ColoredStdout_init t), emit_to f (concat_codes texts) w)
  ∧ ColoredStdout_flush (ColoredStdout_init t) (emit_to f (concat_codes texts) w)
    = (Return (ColoredStdout_init t), emit_to f (concat_codes texts) w).
Proof.
  intros Hf. split; [| reflexivity].
  destruct (buffer_after_writes (ColoredStdout_init t) texts) as [Hb Ht].
  simpl in Hb, Ht. unfold ColoredStdout_flush. rewrite Hb, Ht.
  destruct texts as [|text texts].
  - by rewrite emit_to_nil.
  - unfold bind, getattr_original_stdout. rewrite Hf. unfold ret.
    rewrite write_emit_to. rewrite ?Hf. unfold flush, ret.
    by rewrite join_empty_concat.
Qed.

Lemma flush_writes_buffer_in_order_witness :
  ColoredStdout_flush
    (foldl ColoredStdout_write
       (ColoredStdout_init (assign_original_stdout term_color_on sys_stdout))
       ["a"; "b"; "c"]) fresh_world
  = (Return (ColoredStdout_init (assign_original_stdout term_color_on sys_stdout)),
     emit_to sys_stdout (concat_codes ["a"; "b"; "c"]) fresh_world)
  ∧ ColoredStdout_flush
      (ColoredStdout_init (assign_original_stdout term_color_on sys_stdout))
      (emit_to sys_stdout (concat_codes ["a"; "b"; "c"]) fresh_world)
    = (Return (ColoredStdout_init (assign_original_stdout term_color_on sys_stdout)),
       emit_to sys_stdout (concat_codes ["a"; "b"; "c"]) fresh_world).
Proof.
  apply (flush_writes_buffer_in_order (assign_original_stdout term_color_on sys_stdout)
           sys_stdout ["a"; "b"; "c"] fresh_world).
  reflexivity.
Defined.

(** X16. With [_original_stdout] missing, a flush of an empty buffer does
    nothing, and a flush after a write raises [AttributeError] with nothing
    written. *)
Theorem flush_of_missing_stream
    (t : Terminal) (texts : list string) (w : world) :
  _original_stdout t = None →
  ColoredStdout_flush (foldl ColoredStdout_write (ColoredStdout_init t) texts) w
  = match texts with
    | [] => (Return (ColoredStdout_init t), w)
    | _ :: _ => (Raise (AttributeError "_original_stdout"), w)
    end.
Proof.
  intros Hnone.
  destruct (buffer_after_writes (ColoredStdout_init t) texts) as [Hb Ht].
  simpl in Hb, Ht. unfold ColoredStdout_flush. rewrite Hb, Ht.
  destruct texts as [|text texts]; [reflexivity |].
  unfold bind, getattr_original_stdout. by rewrite Hnone.
Qed.

Lemma flush_of_missing_stream_witness :
  ColoredStdout_flush (foldl ColoredStdout_write (ColoredStdout_init term_color_on) [])
    fresh_world
  = (Return (ColoredStdout_init term_color_on), fresh_world).
Proof.
  apply (flush_of_missing_stream term_color_on [] fresh_world). reflexivity.
Defined.

(** ** A block of prints in a scope *)

Lemma print_all_output (lines : list (list pyval)) (w : world) :
  print_all lines w = (Return (), emit (block_output (builtins_print w) lines) w).
Proof.
  revert w. induction lines as [|args lines IH]; intros w.
  - simpl. unfold ret. by rewrite emit_nil.
  - simpl. unfold bind. rewrite print_plain, IH.
    rewrite emit_emit. reflexivity.
Qed.

(** X17. With colour on and every requested name known, each [print] of a
    block inside the scope is wrapped on its own in the codes and the reset
    sequence, and the exit appends one more reset sequence. *)
Theorem scope_styles_every_print
    (n : nat) (self : Terminal) (fg_color bg_color styles : pyval)
    (found : list string) (lines : list (list pyval)) (w : world) :
  _color_enabled self = true →
  is_name fg_color = true → is_name bg_color = true →
  Forall2 found_in (requested_names self fg_color bg_color styles) found →
  color_context (S n) self fg_color bg_color styles (print_all lines) w
  = (Return (),
     emit (block_output (StyledPrint (concat_codes found)) lines
           +:+ TerminalColor.value TerminalColor.RESET) w).
Proof.
  intros Hon Hfg Hbg Hfound.
  assert (Hg : _get_style_codes (S n) self fg_color bg_color styles w
               = (Return (concat_codes found), w)).
  { change (_get_style_codes (S n)) with (Rec._get_style_codes (_get_style_codes n)).
    rewrite Rec_get_style_codes_resolve by done.
    by rewrite (resolve_all_found _ _ [] Hfound). }
  unfold color_context.
  rewrite (color_context_enabled _ _ _ _ _ _ _ _ _ Hon Hg).
  rewrite print_all_output. simpl builtins_print.
  destruct w as [out err p]. unfold emit, rebind; simpl.
  by rewrite string_app_assoc.
Qed.

Lemma scope_styles_every_print_witness :
  color_context 1 term_color_on (VStr "red") VNone (VStr "bold")
    (print_all [[VStr "one"]; [VStr "two"; VStr "three"]]) fresh_world
  = (Return (),
     emit (block_output (StyledPrint (concat_codes [esc "[31m"; esc "[1m"]))
             [[VStr "one"]; [VStr "two"; VStr "three"]]
           +:+ TerminalColor.value TerminalColor.RESET) fresh_world).
Proof.
  apply (scope_styles_every_print 0 term_color_on (VStr "red") VNone (VStr "bold")
           [esc "[31m"; esc "[1m"] [[VStr "one"]; [VStr "two"; VStr "three"]] fresh_world).
  - reflexivity.
  - reflexivity.
  - reflexivity.
  - repeat constructor; vm_compute; reflexivity.
Defined.
